(** * Byteboard scale firmware: command decoding, calibration store,
    measurement engine and dispatch loop

  A shallow embedding of [src/CommandConverter.cpp] (with its header) and
  of [src/byteboard_hardware.ino], and the properties of the firmware
  stated over it.

  Conventions of the embedding.
  - A C [float] is its 32-bit IEEE 754 pattern, a [Z] in [0, 2^32).
    Arithmetic and comparisons decode the pattern to a [spec_float]
    (binary32: precision 24, emax 128), apply the operation of the
    Standard Library's executable IEEE specification (round to nearest,
    ties to even) and encode the result.  Copies ([memcpy], [EEPROM.put],
    [EEPROM.get]) move the pattern itself, byte by byte, little endian
    (the target, an ESP32, is little endian).
  - [int], [long] and [int32_t] are 32 bits wide on the target; they are
    [Z] with the two's complement wrap-around written out ([wrap32]).
  - The non-volatile memory is a list of bytes updated by index. *)

From Stdlib Require Import ZArith Lia Bool List QArith Qabs Qpower Qfield Lqa.
From Stdlib Require Import Floats.SpecFloat.
From stdpp Require Import base list strings gmap.

Local Open Scope Z_scope.

(** ** Machine integers *)

Definition wrap32 (z : Z) : Z := (z + 2 ^ 31) mod 2 ^ 32 - 2 ^ 31.

Definition unsigned32 (z : Z) : Z := z mod 2 ^ 32.

(** [byte_of v k] is byte number [k] (little endian) of the object
  representation [v]. *)
Definition byte_of (v : Z) (k : nat) : Z :=
  (v / 2 ^ (8 * Z.of_nat k)) mod 256.

Definition bytes_of32 (v : Z) : list Z :=
  [byte_of v 0; byte_of v 1; byte_of v 2; byte_of v 3].

Definition word_of_bytes (b0 b1 b2 b3 : Z) : Z :=
  b0 + 2 ^ 8 * b1 + 2 ^ 16 * b2 + 2 ^ 24 * b3.

(** ** IEEE 754 binary32 *)

Module F32.

Definition prec : Z := 24.
Definition emax : Z := 128.

(** Decoding of a 32-bit pattern: sign in bit 31, biased exponent in
  bits 30..23, fraction in bits 22..0. *)
Definition of_bits (b : Z) : spec_float :=
  let s := Z.odd (b / 2 ^ 31) in
  let e := (b / 2 ^ 23) mod 2 ^ 8 in
  let m := b mod 2 ^ 23 in
  if e =? 0 then
    match m with
    | Zpos p => S754_finite s p (-149)
    | _ => S754_zero s
    end
  else if e =? 255 then
    if m =? 0 then S754_infinity s else S754_nan
  else
    match m + 2 ^ 23 with
    | Zpos p => S754_finite s p (e - 150)
    | _ => S754_nan
    end.

Definition sign_bit (s : bool) : Z := if s then 2 ^ 31 else 0.

(** Encoding.  The sign and the payload of a NaN that an operation
    produces are the platform's choice; the default quiet NaN stands for
    it here, and a property of bytes that leave the device says of a
    computed NaN only that it is one ([is_nan]). *)
Definition to_bits (x : spec_float) : Z :=
  match x with
  | S754_zero s => sign_bit s
  | S754_infinity s => sign_bit s + 255 * 2 ^ 23
  | S754_nan => 255 * 2 ^ 23 + 2 ^ 22
  | S754_finite s m e =>
      if Zpos m <? 2 ^ 23 then sign_bit s + Zpos m
      else sign_bit s + (e + 150) * 2 ^ 23 + (Zpos m - 2 ^ 23)
  end.

(** [(float) n] for an integer [n]. *)
Definition of_int (n : Z) : Z :=
  to_bits (binary_normalize prec emax n 0 false).

Definition zero : Z := 0.

Definition add (a b : Z) : Z :=
  to_bits (SFadd prec emax (of_bits a) (of_bits b)).

Definition div (a b : Z) : Z :=
  to_bits (SFdiv prec emax (of_bits a) (of_bits b)).

(** [a == b], [a < b] and [a > b] on two floats. *)
Definition eqb (a b : Z) : bool := SFeqb (of_bits a) (of_bits b).
Definition ltb (a b : Z) : bool := SFltb (of_bits a) (of_bits b).
Definition gtb (a b : Z) : bool := SFltb (of_bits b) (of_bits a).
Definition leb (a b : Z) : bool := SFleb (of_bits a) (of_bits b).

Definition is_nan (a : Z) : bool :=
  match of_bits a with S754_nan => true | _ => false end.

(** The magnitude of a finite nonzero number. *)
Definition SF_mag (x : spec_float) : Q :=
  match x with
  | S754_finite _ m e => (inject_Z (Zpos m) * 2 ^ e)%Q
  | _ => 0%Q
  end.

Definition mag (a : Z) : Q := SF_mag (of_bits a).

Definition sign (a : Z) : bool :=
  match of_bits a with
  | S754_zero s | S754_infinity s | S754_finite s _ _ => s
  | S754_nan => false
  end.

(** The number a pattern denotes, for the finite ones (0 otherwise). *)
Definition to_Q (a : Z) : Q :=
  match of_bits a with
  | S754_finite s m e => (inject_Z (cond_Zopp s (Zpos m)) * Qpower 2 e)%Q
  | _ => 0%Q
  end.

Definition is_finite (a : Z) : bool :=
  match of_bits a with
  | S754_finite _ _ _ | S754_zero _ => true
  | _ => false
  end.

(** A normal number: the exponent field is neither 0 nor 255. *)
Definition is_normal (a : Z) : bool :=
  let e := (a / 2 ^ 23) mod 2 ^ 8 in
  (1 <=? e) && (e <=? 254).

(** A nonzero number (normal or subnormal). *)
Definition is_number (a : Z) : bool :=
  match of_bits a with
  | S754_finite _ _ _ => true
  | _ => false
  end.

(** Promotion of a float to [double] (exact), for comparisons against a
    [double] literal. *)
Definition to_double (a : Z) : spec_float :=
  match of_bits a with
  | S754_finite s m e => binary_round 53 1024 s m e
  | x => x
  end.

(** The [double] literal [0.1], the correctly rounded quotient 1/10. *)
Definition double_0_1 : spec_float :=
  SFdiv 53 1024 (binary_normalize 53 1024 1 0 false)
                (binary_normalize 53 1024 10 0 false).

End F32.


(** ** CommandConverter.h and CommandConverter.cpp *)

Module CommandConverter.

(** [enum class Commands]: no initialisers, so the enumerators number
    from 0 in the order of their declaration. *)
Inductive Commands : Set :=
  | NOTHING
  | ACKNOWLEDGE
  | TARE
  | CALIBRATE
  | TIMED_MEASURE.

Definition underlying (c : Commands) : Z :=
  match c with
  | NOTHING => 0
  | ACKNOWLEDGE => 1
  | TARE => 2
  | CALIBRATE => 3
  | TIMED_MEASURE => 4
  end.

(** What a call may throw, and the outcome of a call that may throw. *)
Inductive exception : Set :=
  | invalid_argument (what : string).

Inductive outcome (A : Type) : Type :=
  | Returns (a : A)
  | Throws (e : exception).
Arguments Returns {A} a.
Arguments Throws {A} e.

Definition stringToCommandMap : gmap string Commands :=
  list_to_map
    [ ("nothing", NOTHING);
      ("acknowledge", ACKNOWLEDGE);
      ("tare", TARE);
      ("calibrate", CALIBRATE);
      ("timed_measure", TIMED_MEASURE) ].

Definition stringToCommand (command : string) : outcome Commands :=
  match stringToCommandMap !! command with
  | Some c => Returns c
  | None => Throws (invalid_argument ("Invalid command string: " +:+ command))
  end.

End CommandConverter.

(** ** byteboard_hardware.ino *)

Module Sketch.

(** *** Constants and globals *)

Definition LOCATION_CALIBRATION_FACTOR : nat := 0.
Definition LOCATION_ZERO_OFFSET : nat := 10.

(** [enum Commands : uint8_t], with its explicit values. *)
Inductive Commands : Set :=
  | NOTHING
  | TARE
  | CALIBRATE
  | TIMED_MEASURE.

Definition underlying (c : Commands) : Z :=
  match c with
  | NOTHING => 0
  | TARE => 1
  | CALIBRATE => 2
  | TIMED_MEASURE => 3
  end.

(** The two values the load-cell driver object [myScale] holds. *)
Record NAU7802 : Type := {
    zeroOffset : Z;          (* int32_t *)
    calibrationFactor : Z    (* float, as its bit pattern *)
  }.

(** The globals of the sketch together with the parts of the outside
    world the sketch reads and writes: the EEPROM cells, the stream of
    samples the amplifier will deliver ([adc], read at position
    [adcPos]), the numbers the operator will type on the console and
    the count of advertising restarts asked of the wireless stack. *)
Record Device : Type := {
    myScale : NAU7802;
    EEPROM : list Z;
    settingsDetected : bool;
    deviceConnected : bool;
    oldDeviceConnected : bool;
    command : Z;             (* uint8_t *)
    adc : nat -> Z;
    adcPos : nat;
    console : list Z;        (* floats Serial.parseFloat() will return *)
    advertisingStarts : nat
  }.

Definition set_myScale (s : NAU7802) (d : Device) : Device :=
  {| myScale := s; EEPROM := EEPROM d;
     settingsDetected := settingsDetected d;
     deviceConnected := deviceConnected d;
     oldDeviceConnected := oldDeviceConnected d;
     command := command d; adc := adc d; adcPos := adcPos d;
     console := console d; advertisingStarts := advertisingStarts d |}.

Definition set_EEPROM (m : list Z) (d : Device) : Device :=
  {| myScale := myScale d; EEPROM := m;
     settingsDetected := settingsDetected d;
     deviceConnected := deviceConnected d;
     oldDeviceConnected := oldDeviceConnected d;
     command := command d; adc := adc d; adcPos := adcPos d;
     console := console d; advertisingStarts := advertisingStarts d |}.

Definition set_settingsDetected (b : bool) (d : Device) : Device :=
  {| myScale := myScale d; EEPROM := EEPROM d;
     settingsDetected := b;
     deviceConnected := deviceConnected d;
     oldDeviceConnected := oldDeviceConnected d;
     command := command d; adc := adc d; adcPos := adcPos d;
     console := console d; advertisingStarts := advertisingStarts d |}.

Definition set_deviceConnected (b : bool) (d : Device) : Device :=
  {| myScale := myScale d; EEPROM := EEPROM d;
     settingsDetected := settingsDetected d;
     deviceConnected := b;
     oldDeviceConnected := oldDeviceConnected d;
     command := command d; adc := adc d; adcPos := adcPos d;
     console := console d; advertisingStarts := advertisingStarts d |}.

Definition set_oldDeviceConnected (b : bool) (d : Device) : Device :=
  {| myScale := myScale d; EEPROM := EEPROM d;
     settingsDetected := settingsDetected d;
     deviceConnected := deviceConnected d;
     oldDeviceConnected := b;
     command := command d; adc := adc d; adcPos := adcPos d;
     console := console d; advertisingStarts := advertisingStarts d |}.

Definition set_command (c : Z) (d : Device) : Device :=
  {| myScale := myScale d; EEPROM := EEPROM d;
     settingsDetected := settingsDetected d;
     deviceConnected := deviceConnected d;
     oldDeviceConnected := oldDeviceConnected d;
     command := c; adc := adc d; adcPos := adcPos d;
     console := console d; advertisingStarts := advertisingStarts d |}.

Definition set_adcPos (n : nat) (d : Device) : Device :=
  {| myScale := myScale d; EEPROM := EEPROM d;
     settingsDetected := settingsDetected d;
     deviceConnected := deviceConnected d;
     oldDeviceConnected := oldDeviceConnected d;
     command := command d; adc := adc d; adcPos := n;
     console := console d; advertisingStarts := advertisingStarts d |}.

Definition set_console (l : list Z) (d : Device) : Device :=
  {| myScale := myScale d; EEPROM := EEPROM d;
     settingsDetected := settingsDetected d;
     deviceConnected := deviceConnected d;
     oldDeviceConnected := oldDeviceConnected d;
     command := command d; adc := adc d; adcPos := adcPos d;
     console := l; advertisingStarts := advertisingStarts d |}.

Definition startAdvertising (d : Device) : Device :=
  {| myScale := myScale d; EEPROM := EEPROM d;
     settingsDetected := settingsDetected d;
     deviceConnected := deviceConnected d;
     oldDeviceConnected := oldDeviceConnected d;
     command := command d; adc := adc d; adcPos := adcPos d;
     console := console d;
     advertisingStarts := S (advertisingStarts d) |}.

(** *** Callbacks of the wireless stack *)

Definition onConnect (d : Device) : Device := set_deviceConnected true d.
Definition onDisconnect (d : Device) : Device := set_deviceConnected false d.

(** [ControlCharacteristicCallbacks::onWrite]: the first byte written
    becomes the current command. *)
Definition onWrite_control (data : Z) (d : Device) : Device :=
  set_command (data mod 2 ^ 8) d.

(** *** EEPROM: an object is copied to and from the cells byte by byte *)

(** Both objects stored are 4 bytes wide.  The sketch only uses the cells
    0..3 and 10..13; a write beyond the last cell is dropped and a read
    beyond it yields 0. *)

Definition EEPROM_put (address : nat) (v : Z) (mem : list Z) : list Z :=
  list_inserts address (bytes_of32 v) mem.

Definition EEPROM_get (address : nat) (mem : list Z) : Z :=
  word_of_bytes (mem !!! address) (mem !!! (address + 1)%nat)
                (mem !!! (address + 2)%nat) (mem !!! (address + 3)%nat).

(** *** The load-cell driver *)

Definition getZeroOffset (d : Device) : Z := zeroOffset (myScale d).
Definition getCalibrationFactor (d : Device) : Z :=
  calibrationFactor (myScale d).

Definition setZeroOffset (z : Z) (d : Device) : Device :=
  set_myScale {| zeroOffset := z;
                 calibrationFactor := calibrationFactor (myScale d) |} d.

Definition setCalibrationFactor (f : Z) (d : Device) : Device :=
  set_myScale {| zeroOffset := zeroOffset (myScale d);
                 calibrationFactor := f |} d.

(** Modelled from the spec: the vendor driver's [getReading], which is not
    part of the sources; it hands out the next raw sample of the
    amplifier, an [int32_t]. *)
Definition getReading (d : Device) : Z * Device :=
  (wrap32 (adc d (adcPos d)), set_adcPos (S (adcPos d)) d).

Fixpoint getReadings (n : nat) (d : Device) : list Z * Device :=
  match n with
  | O => ([], d)
  | S n' =>
      let '(r, d1) := getReading d in
      let '(rs, d2) := getReadings n' d1 in
      (r :: rs, d2)
  end.

(** Modelled from the spec: the vendor driver's averaging, which is not
    part of the sources ("acquires [averagingCount] raw samples from the
    amplifier driver, averages them"); the average of integers is an
    integer, the quotient truncated as C divides. *)
Definition getAverage (averageAmount : nat) (d : Device) : Z * Device :=
  let '(rs, d1) := getReadings averageAmount d in
  (wrap32 (Z.quot (foldr Z.add 0 rs) (Z.of_nat averageAmount)), d1).

(** Modelled from the spec: the vendor driver's tare, which is not part of
    the sources ("sets [zeroOffset] to the average"). *)
Definition calculateZeroOffset (averageAmount : nat) (d : Device) : Device :=
  let '(avg, d1) := getAverage averageAmount d in
  setZeroOffset avg d1.

(** Modelled from the spec: the vendor driver's calibration step, which is
    not part of the sources ("computes [scaleFactor = (averageRawSample -
    zeroOffset) / knownWeight]").  It returns nothing and the sketch
    looks at no outcome of it; the weight is used as it comes ("source
    currently has no validation"). *)
Definition calculateCalibrationFactor
    (weightOnScale : Z) (averageAmount : nat) (d : Device) : Device :=
  let '(onScale, d1) := getAverage averageAmount d in
  setCalibrationFactor
    (F32.div (F32.of_int (wrap32 (onScale - getZeroOffset d1))) weightOnScale)
    d1.

(** Modelled from the spec: the vendor driver's weight reading, which is
    not part of the sources ("[weight = (rawSample - zeroOffset) /
    scaleFactor]"), taken on an average of samples. *)
Definition getWeight (samplesToTake : nat) (d : Device) : Z * Device :=
  let '(onScale, d1) := getAverage samplesToTake d in
  (F32.div (F32.of_int (wrap32 (onScale - getZeroOffset d1)))
           (getCalibrationFactor d1), d1).

(** *** setFloatArrayValue *)

(** [new uint8_t[n]]: [n] bytes of unspecified content [junk]. *)
Definition new_uint8 (junk : nat -> Z) (n : nat) : list Z :=
  map junk (seq 0 n).

(** [std::memcpy (temp + offset, &f, sizeof (float))]. *)
Definition memcpy_float (temp : list Z) (offset : nat) (f : Z) : list Z :=
  list_inserts offset (bytes_of32 f) temp.

(** The [for] loop, entered with index [i], the running [sum] and the
    buffer [temp], over the floats from position [i] on. *)
Fixpoint copy_loop (data32 : list Z) (i : nat) (sum : Z) (temp : list Z)
    : Z * list Z :=
  match data32 with
  | [] => (sum, temp)
  | x :: rest =>
      copy_loop rest (S i) (F32.add sum x) (memcpy_float temp (i * 4) x)
  end.

(** The value handed to [p->setValue].  [size_t] is 32 bits wide. *)
Definition setFloatArrayValue (junk : nat -> Z) (data32 : list Z) : list Z :=
  let length := Z.of_nat (List.length data32) in
  let byteLength := (4 * length) mod 2 ^ 32 in
  let totalLength := (byteLength + 4) mod 2 ^ 32 in
  let temp := new_uint8 junk (Z.to_nat ((byteLength + 4) mod 2 ^ 32)) in
  let '(sum, temp1) := copy_loop data32 0 F32.zero temp in
  let temp2 := memcpy_float temp1 (List.length data32 * 4) sum in
  take (Z.to_nat totalLength) temp2.

(** *** timedMeasure *)

Definition numMeasurements : nat := 1000.

(** [(measurements[j] - zeroOffset) / calibrationFactor]: a subtraction
    of two [int], converted to [float] for the division. *)
Definition trueWeight (measurement zeroOffset calibrationFactor : Z) : Z :=
  F32.div (F32.of_int (wrap32 (measurement - zeroOffset))) calibrationFactor.

(** The second loop of [timedMeasure], entered with the running maximum. *)
Fixpoint maxWeightLoop
    (measurements : list Z) (zeroOffset calibrationFactor maxWeight : Z) : Z :=
  match measurements with
  | [] => maxWeight
  | m :: rest =>
      let t := trueWeight m zeroOffset calibrationFactor in
      maxWeightLoop rest zeroOffset calibrationFactor
        (if F32.gtb t maxWeight then t else maxWeight)
  end.

(** [timedMeasure] returns nothing; the value paired with the device is
    the maximum it prints.  The countdown, the clock and the wait for a
    key are left out. *)
Definition timedMeasure (d : Device) : Z * Device :=
  let zeroOffset := wrap32 (getZeroOffset d) in
  let calibrationFactor := getCalibrationFactor d in
  let '(measurements, d1) := getReadings numMeasurements d in
  (maxWeightLoop measurements zeroOffset calibrationFactor F32.zero, d1).

(** *** Settings in EEPROM *)

Definition recordSystemSettings (d : Device) : Device :=
  let m1 := EEPROM_put LOCATION_CALIBRATION_FACTOR
              (getCalibrationFactor d) (EEPROM d) in
  let m2 := EEPROM_put LOCATION_ZERO_OFFSET (getZeroOffset d) m1 in
  set_EEPROM m2 d.

(** In [settingCalibrationFactor == 0xFFFFFFFF] the literal, an
    [unsigned int], is converted to [float]; in [settingZeroOffset ==
    0xFFFFFFFF] the [long] is converted to [unsigned long]; in
    [settingCalibrationFactor < 0.1] the float is promoted to [double]. *)
Definition readSystemSettings (d : Device) : Device :=
  let f0 := EEPROM_get LOCATION_CALIBRATION_FACTOR (EEPROM d) in
  let '(settingCalibrationFactor, m1) :=
    if F32.eqb f0 (F32.of_int 4294967295)
    then (F32.of_int 0,
          EEPROM_put LOCATION_CALIBRATION_FACTOR (F32.of_int 0) (EEPROM d))
    else (f0, EEPROM d) in
  let z0 := wrap32 (EEPROM_get LOCATION_ZERO_OFFSET m1) in
  let '(settingZeroOffset, m2) :=
    if unsigned32 z0 =? 4294967295
    then (1000, EEPROM_put LOCATION_ZERO_OFFSET 1000 m1)
    else (z0, m1) in
  let d1 := set_EEPROM m2 d in
  let d2 := setCalibrationFactor settingCalibrationFactor d1 in
  let d3 := setZeroOffset settingZeroOffset d2 in
  if SFltb (F32.to_double settingCalibrationFactor) F32.double_0_1
     || (settingZeroOffset =? 1000)
  then set_settingsDetected false d3
  else set_settingsDetected true d3.

(** *** calibrateScale and loop *)

Section DriverDefaults.

(** The number of samples the driver averages when the sketch passes
    none ([calculateZeroOffset ()], [getWeight ()]): a default argument
    of the vendor header, which is not part of the sources. *)
Variable defaultSamples : nat.

(** [Serial.parseFloat ()]: the next number typed, 0 when none comes. *)
Definition parseFloat (d : Device) : Z * Device :=
  match console d with
  | [] => (F32.zero, d)
  | w :: rest => (w, set_console rest d)
  end.

(** The waits for a key and the prints are left out. *)
Definition calibrateScale (d : Device) : Device :=
  let d1 := calculateZeroOffset 64 d in
  let '(weightOnScale, d2) := parseFloat d1 in
  let d3 := calculateCalibrationFactor weightOnScale 64 d2 in
  let '(_, d4) := getWeight defaultSamples d3 in
  recordSystemSettings d4.

(** The [switch] of [loop]: the enumerator whose case label the
    command matches, [None] for the [default] label. *)
Definition switch (command : Z) : option Commands :=
  if command =? underlying NOTHING then Some NOTHING
  else if command =? underlying TARE then Some TARE
  else if command =? underlying CALIBRATE then Some CALIBRATE
  else if command =? underlying TIMED_MEASURE then Some TIMED_MEASURE
  else None.

Definition loop (d : Device) : Device :=
  let d1 :=
    if deviceConnected d then
      match switch (command d) with
      | Some NOTHING => d
      | Some TARE => calculateZeroOffset defaultSamples d
      | Some CALIBRATE => calibrateScale d
      | Some TIMED_MEASURE => snd (timedMeasure d)
      | None => d
      end
    else d in
  let d2 :=
    if negb (deviceConnected d1) && oldDeviceConnected d1
    then set_oldDeviceConnected (deviceConnected d1) (startAdvertising d1)
    else d1 in
  if deviceConnected d2 && negb (oldDeviceConnected d2)
  then set_oldDeviceConnected (deviceConnected d2) d2
  else d2.

End DriverDefaults.

End Sketch.

(** * Fixtures and auxiliary notions of the properties *)

(** The five tokens of the decoder. *)
Definition tokens : list string :=
  ["nothing"; "acknowledge"; "tare"; "calibrate"; "timed_measure"].

(** The operation the dispatch loop runs for the numeric value of a decoded
  command. *)
Definition dispatched (c : CommandConverter.Commands) : option Sketch.Commands :=
  Sketch.switch (CommandConverter.underlying c).

(** A disconnected scale with a Tare command pending. *)
Definition tarePending : Sketch.Device :=
  {| Sketch.myScale := {| Sketch.zeroOffset := 25776;
                          Sketch.calibrationFactor := 1150199269 |};
     Sketch.EEPROM := replicate 512 255;
     Sketch.settingsDetected := true;
     Sketch.deviceConnected := false;
     Sketch.oldDeviceConnected := true;
     Sketch.command := 1;
     Sketch.adc := fun _ => 43122;
     Sketch.adcPos := 0;
     Sketch.console := [];
     Sketch.advertisingStarts := 0 |}.

(** A calibrated scale. *)
Definition calibrated : Sketch.Device :=
  {| Sketch.myScale := {| Sketch.zeroOffset := 25776;
                          Sketch.calibrationFactor := 1150199269 |};
     Sketch.EEPROM := replicate 512 255;
     Sketch.settingsDetected := true;
     Sketch.deviceConnected := true;
     Sketch.oldDeviceConnected := true;
     Sketch.command := 0;
     Sketch.adc := fun _ => 43122;
     Sketch.adcPos := 0;
     Sketch.console := [];
     Sketch.advertisingStarts := 0 |}.

(** A tared scale whose zero offset is -1. *)
Definition zeroOffsetMinusOne : Sketch.Device :=
  {| Sketch.myScale := {| Sketch.zeroOffset := -1;
                          Sketch.calibrationFactor := 1150199269 |};
     Sketch.EEPROM := replicate 512 255;
     Sketch.settingsDetected := true;
     Sketch.deviceConnected := true;
     Sketch.oldDeviceConnected := true;
     Sketch.command := 0;
     Sketch.adc := fun _ => 43122;
     Sketch.adcPos := 0;
     Sketch.console := [];
     Sketch.advertisingStarts := 0 |}.

(** A device whose EEPROM was never written: every cell reads 0xFF. *)
Definition erased : Sketch.Device :=
  {| Sketch.myScale := {| Sketch.zeroOffset := 0;
                          Sketch.calibrationFactor := 0 |};
     Sketch.EEPROM := replicate 512 255;
     Sketch.settingsDetected := false;
     Sketch.deviceConnected := false;
     Sketch.oldDeviceConnected := false;
     Sketch.command := 0;
     Sketch.adc := fun _ => 25776;
     Sketch.adcPos := 0;
     Sketch.console := [];
     Sketch.advertisingStarts := 0 |}.

(** The running maximum is the initial 0.0 or a computed weight above 0. *)
Definition zero_or_positive_sample
    (measurements : list Z) (zeroOffset calibrationFactor maxWeight : Z)
    : Prop :=
  maxWeight = F32.zero \/
  (F32.gtb maxWeight F32.zero = true /\
   exists m, In m measurements /\
             maxWeight = Sketch.trueWeight m zeroOffset calibrationFactor).

(** An empty scale tared at 1000 with scale factor 1.0: every sample
  weighs -1000. *)
Definition allNegative : Sketch.Device :=
  {| Sketch.myScale := {| Sketch.zeroOffset := 1000;
                          Sketch.calibrationFactor := 1065353216 |};
     Sketch.EEPROM := replicate 512 255;
     Sketch.settingsDetected := false;
     Sketch.deviceConnected := true;
     Sketch.oldDeviceConnected := true;
     Sketch.command := 3;
     Sketch.adc := fun _ => 0;
     Sketch.adcPos := 0;
     Sketch.console := [];
     Sketch.advertisingStarts := 0 |}.

(** The average the driver computes over [n] samples from position [pos]
    of the sample stream. *)
Definition averageAt (d : Sketch.Device) (pos n : nat) : Z :=
  wrap32 (Z.quot (foldr Z.add 0
                    (map (fun i => wrap32 (Sketch.adc d i)) (seq pos n)))
                 (Z.of_nat n)).

(** The scale of the sketch's header comment: it reads 25776 empty and
  43122 with a 15.2 oz cup of tea on it; the operator types 15.2. *)
Definition teaCup : Sketch.Device :=
  {| Sketch.myScale := {| Sketch.zeroOffset := 1000;
                          Sketch.calibrationFactor := 0 |};
     Sketch.EEPROM := replicate 512 255;
     Sketch.settingsDetected := false;
     Sketch.deviceConnected := true;
     Sketch.oldDeviceConnected := true;
     Sketch.command := 2;
     Sketch.adc := fun i => if (i <? 64)%nat then 25776 else 43122;
     Sketch.adcPos := 0;
     Sketch.console := [F32.div (F32.of_int 152) (F32.of_int 10)];
     Sketch.advertisingStarts := 0 |}.

(** The same scale, calibrated earlier with zero offset 25000, whose
  operator types -1. *)
Definition negativeWeight : Sketch.Device :=
  {| Sketch.myScale := {| Sketch.zeroOffset := 25000;
                          Sketch.calibrationFactor := 1150199269 |};
     Sketch.EEPROM := replicate 512 255;
     Sketch.settingsDetected := true;
     Sketch.deviceConnected := true;
     Sketch.oldDeviceConnected := true;
     Sketch.command := 2;
     Sketch.adc := fun i => if (i <? 64)%nat then 25776 else 43122;
     Sketch.adcPos := 0;
     Sketch.console := [F32.of_int (-1)];
     Sketch.advertisingStarts := 0 |}.

(** A connected scale with the byte 4 pending, the decoder's value for
    "timed_measure". *)
Definition strayCommand : Sketch.Device :=
  {| Sketch.myScale := {| Sketch.zeroOffset := 25776;
                          Sketch.calibrationFactor := 1150199269 |};
     Sketch.EEPROM := replicate 512 255;
     Sketch.settingsDetected := true;
     Sketch.deviceConnected := true;
     Sketch.oldDeviceConnected := true;
     Sketch.command := 4;
     Sketch.adc := fun _ => 43122;
     Sketch.adcPos := 0;
     Sketch.console := [];
     Sketch.advertisingStarts := 0 |}.

(** A connected scale with the Tare byte pending. *)
Definition tareConnected : Sketch.Device :=
  {| Sketch.myScale := {| Sketch.zeroOffset := 1000;
                          Sketch.calibrationFactor := 1150199269 |};
     Sketch.EEPROM := replicate 512 255;
     Sketch.settingsDetected := true;
     Sketch.deviceConnected := true;
     Sketch.oldDeviceConnected := false;
     Sketch.command := 1;
     Sketch.adc := fun i => if (i <? 8)%nat then 25776 else 25780;
     Sketch.adcPos := 0;
     Sketch.console := [];
     Sketch.advertisingStarts := 0 |}.

(** The scale of the header comment whose operator types no number. *)
Definition nothingTyped : Sketch.Device :=
  {| Sketch.myScale := {| Sketch.zeroOffset := 1000;
                          Sketch.calibrationFactor := 0 |};
     Sketch.EEPROM := replicate 512 255;
     Sketch.settingsDetected := false;
     Sketch.deviceConnected := true;
     Sketch.oldDeviceConnected := true;
     Sketch.command := 2;
     Sketch.adc := fun i => if (i <? 64)%nat then 25776 else 43122;
     Sketch.adcPos := 0;
     Sketch.console := [];
     Sketch.advertisingStarts := 0 |}.

(** The driver of a scale that has just been started, before anything is
    loaded into it; the two values stand for whatever it then holds. *)
Definition blankDriver : Sketch.NAU7802 :=
  {| Sketch.zeroOffset := 0; Sketch.calibrationFactor := 0 |}.

(** The fraction [N / D] lies in [[m, m + 1)], at the place [l] says:
    on [m], or strictly between [m] and [m + 1], below, at or above the
    middle. *)
Definition located (N D m : Z) (l : location) : Prop :=
  match l with
  | loc_Exact => N = m * D
  | loc_Inexact c =>
      m * D < N < (m + 1) * D /\ Z.compare (2 * (N - m * D)) D = c
  end.

(** Case analysis on the integer comparisons of the context. *)
Ltac compare_cases :=
  repeat match goal with
  | H : _ /\ _ |- _ => destruct H
  | H : context [Z.compare ?a ?b] |- _ =>
      destruct (Z.compare_spec a b); try discriminate H; clear H
  | |- context [Z.compare ?a ?b] => destruct (Z.compare_spec a b)
  end.

(** * Properties *)

(** ** The command decoder *)

Import CommandConverter.

Lemma stringToCommandMap_None (s : string) :
  s ∉ tokens -> stringToCommandMap !! s = None.
Proof.
  unfold tokens, stringToCommandMap. intros Hs.
  repeat (apply not_elem_of_cons in Hs; destruct Hs as [? Hs]).
  cbn [list_to_map foldr uncurry fst snd].
  rewrite !lookup_insert_ne by congruence.
  apply lookup_empty.
Qed.

(** C1: each of the five tokens decodes to its command, and every other
  string makes [stringToCommand] throw [invalid_argument]; it never
  answers [NOTHING] for an unknown string. *)
Theorem stringToCommand_decodes :
  stringToCommand "nothing" = Returns NOTHING /\
  stringToCommand "acknowledge" = Returns ACKNOWLEDGE /\
  stringToCommand "tare" = Returns TARE /\
  stringToCommand "calibrate" = Returns CALIBRATE /\
  stringToCommand "timed_measure" = Returns TIMED_MEASURE /\
  forall s : string, s ∉ tokens ->
    stringToCommand s
      = Throws (invalid_argument ("Invalid command string: " +:+ s)) /\
    stringToCommand s <> Returns NOTHING.
Proof.
  repeat (split; [vm_compute; reflexivity|]).
  intros s Hs. unfold stringToCommand.
  rewrite (stringToCommandMap_None s Hs). split; [reflexivity|discriminate].
Qed.

Lemma stringToCommand_decodes_witness :
  ("reset" ∉ tokens) /\
  stringToCommand "reset"
    = Throws (invalid_argument "Invalid command string: reset").
Proof.
  assert (H : "reset" ∉ tokens).
  { unfold tokens. rewrite !not_elem_of_cons. repeat split; try discriminate.
    apply not_elem_of_nil. }
  split; [exact H|].
  exact (proj1 (proj2 (proj2 (proj2 (proj2 (proj2 stringToCommand_decodes))))
                  "reset" H)).
Defined.

(** ** The dispatch loop *)

Section Dispatch.

Import Sketch.
Variable defaultSamples : nat.

(** C7: a poll tick with [deviceConnected] false runs no scale operation,
    whatever the pending command: the driver's calibration values, the
    EEPROM, the calibrated flag, the position in the sample stream, the
    console input and the command itself are as before the tick. *)
Theorem loop_disconnected_no_effect (d : Device) :
  deviceConnected d = false ->
  let d' := loop defaultSamples d in
  myScale d' = myScale d /\
  EEPROM d' = EEPROM d /\
  settingsDetected d' = settingsDetected d /\
  adcPos d' = adcPos d /\
  console d' = console d /\
  command d' = command d /\
  deviceConnected d' = false.
Proof.
  intros Hd. unfold loop. rewrite Hd. cbn [negb andb].
  destruct (oldDeviceConnected d) eqn:Hold; cbn;
    rewrite ?Hd, ?Hold; cbn; rewrite ?Hd; cbn; rewrite ?Hd;
    repeat split; reflexivity.
Qed.

End Dispatch.

Lemma loop_disconnected_no_effect_witness :
  Sketch.deviceConnected tarePending = false /\
  Sketch.myScale (Sketch.loop 8 tarePending) = Sketch.myScale tarePending.
Proof.
  split; [reflexivity|].
  exact (proj1 (loop_disconnected_no_effect 8 tarePending eq_refl)).
Defined.

(** ** The calibration store *)

Lemma word_of_bytes_of32 (v : Z) :
  word_of_bytes (byte_of v 0) (byte_of v 1) (byte_of v 2) (byte_of v 3)
  = v mod 2 ^ 32.
Proof.
  unfold word_of_bytes, byte_of.
  change (8 * Z.of_nat 0) with 0. change (8 * Z.of_nat 1) with 8.
  change (8 * Z.of_nat 2) with 16. change (8 * Z.of_nat 3) with 24.
  change (2 ^ 0) with 1. change (2 ^ 8) with 256.
  change (2 ^ 16) with 65536. change (2 ^ 24) with 16777216.
  change (2 ^ 32) with 4294967296.
  Z.div_mod_to_equations. lia.
Qed.

Lemma wrap32_unsigned (z : Z) :
  - 2 ^ 31 <= z < 2 ^ 31 -> wrap32 (z mod 2 ^ 32) = z.
Proof.
  unfold wrap32. change (2 ^ 31) with 2147483648.
  change (2 ^ 32) with 4294967296. intros H.
  Z.div_mod_to_equations. lia.
Qed.

Section Store.

Import Sketch.

Lemma length_EEPROM_put (a : nat) (v : Z) (mem : list Z) :
  length (EEPROM_put a v mem) = length mem.
Proof. apply length_inserts. Qed.

Lemma EEPROM_get_put_eq (a : nat) (v : Z) (mem : list Z) :
  (a + 4 <= length mem)%nat ->
  EEPROM_get a (EEPROM_put a v mem) = v mod 2 ^ 32.
Proof.
  intros Hlen. unfold EEPROM_get, EEPROM_put.
  rewrite !list_lookup_total_inserts by (cbn [length bytes_of32]; lia).
  replace (a - a)%nat with 0%nat by lia.
  replace (a + 1 - a)%nat with 1%nat by lia.
  replace (a + 2 - a)%nat with 2%nat by lia.
  replace (a + 3 - a)%nat with 3%nat by lia.
  apply word_of_bytes_of32.
Qed.

Lemma EEPROM_get_put_disjoint (a b : nat) (v : Z) (mem : list Z) :
  (a + 4 <= b \/ b + 4 <= a)%nat ->
  EEPROM_get a (EEPROM_put b v mem) = EEPROM_get a mem.
Proof.
  intros [H|H]; unfold EEPROM_get, EEPROM_put.
  - rewrite !list_lookup_total_inserts_lt by lia. reflexivity.
  - rewrite !list_lookup_total_inserts_ge by (cbn [length bytes_of32]; lia).
    reflexivity.
Qed.

End Store.

Section Roundtrip.

Import Sketch.

(** What loading makes of an EEPROM whose two fields read as [cf] and
    [zo], neither of them as erased: the driver gets exactly these two,
    whatever it held before, and nothing is written. *)
Lemma readSystemSettings_loads (x : Device) (cf zo : Z) :
  EEPROM_get LOCATION_CALIBRATION_FACTOR (EEPROM x) = cf ->
  F32.eqb cf (F32.of_int 4294967295) = false ->
  wrap32 (EEPROM_get LOCATION_ZERO_OFFSET (EEPROM x)) = zo ->
  (unsigned32 zo =? 4294967295) = false ->
  myScale (readSystemSettings x)
  = {| zeroOffset := zo; calibrationFactor := cf |} /\
  EEPROM (readSystemSettings x) = EEPROM x.
Proof.
  intros Hf Hfe Hz Hze. unfold readSystemSettings.
  rewrite Hf, Hfe, Hz, Hze.
  destruct (_ || _); cbn; split; reflexivity.
Qed.

Lemma unsigned32_not_erased (z : Z) :
  - 2 ^ 31 <= z < 2 ^ 31 -> z <> -1 ->
  (unsigned32 z =? 4294967295) = false.
Proof.
  intros Hz Hne. apply Z.eqb_neq. unfold unsigned32. revert Hz Hne.
  change (2 ^ 31) with 2147483648. change (2 ^ 32) with 4294967296.
  intros Hz Hne. Z.div_mod_to_equations. lia.
Qed.

(** C6 (as amended): take a scale whose zero offset is not -1 (whose
    pattern is the erased one, which loading replaces by 1000) and whose
    scale factor is not the erased pattern 0xFFFFFFFF either and does not
    compare equal to 4294967296.0.  Recording its settings leaves the
    scale factor in the 4 bytes at offset 0 and the zero offset in the 4
    bytes at offset 10, which do not overlap; and loading them into a
    driver that has lost its state (it holds any [s], as after a restart)
    gives the driver the same scale factor, bit for bit, and the same
    zero offset, and writes nothing. *)
Theorem record_then_read_roundtrip (d : Device) (s : NAU7802) :
  (14 <= length (EEPROM d))%nat ->
  0 <= getCalibrationFactor d < 2 ^ 32 ->
  - 2 ^ 31 <= getZeroOffset d < 2 ^ 31 ->
  getZeroOffset d <> -1 ->
  getCalibrationFactor d <> 4294967295 ->
  F32.eqb (getCalibrationFactor d) (F32.of_int 4294967295) = false ->
  let stored := recordSystemSettings d in
  let d' := readSystemSettings (set_myScale s stored) in
  (LOCATION_CALIBRATION_FACTOR + 4 <= LOCATION_ZERO_OFFSET)%nat /\
  EEPROM_get LOCATION_CALIBRATION_FACTOR (EEPROM stored)
    = getCalibrationFactor d /\
  wrap32 (EEPROM_get LOCATION_ZERO_OFFSET (EEPROM stored))
    = getZeroOffset d /\
  getCalibrationFactor d' = getCalibrationFactor d /\
  getZeroOffset d' = getZeroOffset d /\
  myScale d' = myScale d /\
  EEPROM d' = EEPROM stored.
Proof.
  intros Hlen Hcf Hzo Hne _ Hfe stored d'.
  assert (Hg0 : EEPROM_get LOCATION_CALIBRATION_FACTOR (EEPROM stored)
                = getCalibrationFactor d).
  { unfold stored, recordSystemSettings. cbn [EEPROM set_EEPROM].
    rewrite EEPROM_get_put_disjoint
      by (unfold LOCATION_CALIBRATION_FACTOR, LOCATION_ZERO_OFFSET; lia).
    rewrite EEPROM_get_put_eq
      by (unfold LOCATION_CALIBRATION_FACTOR; lia).
    apply Z.mod_small. exact Hcf. }
  assert (Hg10 : wrap32 (EEPROM_get LOCATION_ZERO_OFFSET (EEPROM stored))
                 = getZeroOffset d).
  { unfold stored, recordSystemSettings. cbn [EEPROM set_EEPROM].
    rewrite EEPROM_get_put_eq
      by (rewrite length_EEPROM_put; unfold LOCATION_ZERO_OFFSET; lia).
    apply wrap32_unsigned. exact Hzo. }
  assert (Hmem : EEPROM (set_myScale s stored) = EEPROM stored)
    by reflexivity.
  destruct (readSystemSettings_loads (set_myScale s stored)
              (getCalibrationFactor d) (getZeroOffset d))
    as [Hm He].
  - rewrite Hmem. exact Hg0.
  - exact Hfe.
  - rewrite Hmem. exact Hg10.
  - apply unsigned32_not_erased; assumption.
  - fold d' in Hm, He.
    assert (Hd : myScale d' = myScale d).
    { rewrite Hm. unfold getCalibrationFactor, getZeroOffset.
      destruct (myScale d). reflexivity. }
    split; [unfold LOCATION_CALIBRATION_FACTOR, LOCATION_ZERO_OFFSET; lia|].
    split; [exact Hg0|]. split; [exact Hg10|].
    unfold getCalibrationFactor, getZeroOffset. rewrite Hd.
    repeat split. rewrite He. exact Hmem.
Qed.

End Roundtrip.

Lemma record_then_read_roundtrip_witness :
  Sketch.myScale (Sketch.readSystemSettings
                    (Sketch.set_myScale blankDriver
                       (Sketch.recordSystemSettings calibrated)))
  = Sketch.myScale calibrated.
Proof.
  refine (proj1 (proj2 (proj2 (proj2 (proj2 (proj2
            (record_then_read_roundtrip calibrated blankDriver
               _ _ _ _ _ _))))))).
  - vm_compute. lia.
  - vm_compute. split; [discriminate|reflexivity].
  - vm_compute. split; [discriminate|reflexivity].
  - vm_compute. discriminate.
  - vm_compute. discriminate.
  - vm_compute. reflexivity.
Defined.

(** A zero offset of -1 does not come back: recorded, then loaded into a
    driver that has lost its state, it reads as erased and 1000 is
    loaded. *)
Lemma roundtrip_fails_at_minus_one :
  let d' := Sketch.readSystemSettings
              (Sketch.set_myScale blankDriver
                 (Sketch.recordSystemSettings zeroOffsetMinusOne)) in
  Sketch.getZeroOffset zeroOffsetMinusOne = -1 /\
  Sketch.getZeroOffset d' = 1000 /\
  Sketch.myScale d' <> Sketch.myScale zeroOffsetMinusOne.
Proof.
  vm_compute. repeat split; discriminate.
Qed.

Section Load.

Import Sketch.

(** The calibrated flag after loading is false exactly when the loaded
    scale factor is below 0.1 or the loaded zero offset is 1000. *)
Lemma readSystemSettings_flag (d : Device) :
  let d' := readSystemSettings d in
  settingsDetected d'
  = negb (SFltb (F32.to_double (getCalibrationFactor d')) F32.double_0_1
          || (getZeroOffset d' =? 1000)).
Proof.
  unfold readSystemSettings.
  destruct (F32.eqb _ _); destruct (unsigned32 _ =? _);
    match goal with
    | |- context [if ?c then _ else _] => destruct c eqn:Hc
    end;
    cbn [getCalibrationFactor getZeroOffset settingsDetected myScale
         set_settingsDetected setZeroOffset setCalibrationFactor
         set_myScale set_EEPROM zeroOffset calibrationFactor];
    rewrite Hc; reflexivity.
Qed.

(** C2, the code at an erased EEPROM (all-ones at both fields): the zero
  offset defaults to 1000 and is written back and the flag is false, but
  the scale factor stays the erased pattern, a NaN, which compares equal
  to nothing: it is neither replaced by 0 nor written back. *)
Theorem readSystemSettings_erased (d : Device) :
  (14 <= length (EEPROM d))%nat ->
  EEPROM_get LOCATION_CALIBRATION_FACTOR (EEPROM d) = 4294967295 ->
  EEPROM_get LOCATION_ZERO_OFFSET (EEPROM d) = 4294967295 ->
  let d' := readSystemSettings d in
  getCalibrationFactor d' = 4294967295 /\
  F32.is_nan (getCalibrationFactor d') = true /\
  F32.eqb (getCalibrationFactor d') (F32.of_int 0) = false /\
  getZeroOffset d' = 1000 /\
  settingsDetected d' = false /\
  EEPROM d' = EEPROM_put LOCATION_ZERO_OFFSET 1000 (EEPROM d) /\
  EEPROM_get LOCATION_CALIBRATION_FACTOR (EEPROM d') = 4294967295 /\
  EEPROM_get LOCATION_ZERO_OFFSET (EEPROM d') = 1000.
Proof.
  intros Hlen Hf Hz d'.
  assert (Hne : F32.eqb 4294967295 (F32.of_int 4294967295) = false)
    by (vm_compute; reflexivity).
  assert (Hall : (unsigned32 (wrap32 4294967295) =? 4294967295) = true)
    by (vm_compute; reflexivity).
  assert (Hd' : d' = set_settingsDetected false
                       (setZeroOffset 1000
                          (setCalibrationFactor 4294967295
                             (set_EEPROM
                                (EEPROM_put LOCATION_ZERO_OFFSET 1000 (EEPROM d))
                                d)))).
  { unfold d', readSystemSettings. rewrite Hf, Hne, Hz, Hall.
    rewrite Z.eqb_refl, orb_true_r. reflexivity. }
  rewrite Hd'.
  cbn [getCalibrationFactor getZeroOffset settingsDetected myScale EEPROM
       set_settingsDetected setZeroOffset setCalibrationFactor set_myScale
       set_EEPROM zeroOffset calibrationFactor].
  repeat split.
  - rewrite EEPROM_get_put_disjoint
      by (unfold LOCATION_CALIBRATION_FACTOR, LOCATION_ZERO_OFFSET; lia).
    exact Hf.
  - rewrite EEPROM_get_put_eq by (unfold LOCATION_ZERO_OFFSET; lia).
    reflexivity.
Qed.

End Load.

Lemma readSystemSettings_erased_witness :
  Sketch.EEPROM_get Sketch.LOCATION_CALIBRATION_FACTOR (Sketch.EEPROM erased)
    = 4294967295 /\
  Sketch.getCalibrationFactor (Sketch.readSystemSettings erased) = 4294967295 /\
  Sketch.getZeroOffset (Sketch.readSystemSettings erased) = 1000.
Proof.
  split; [reflexivity|].
  assert (Hlen : (14 <= length (Sketch.EEPROM erased))%nat)
    by (vm_compute; lia).
  pose proof (readSystemSettings_erased erased Hlen eq_refl eq_refl) as H.
  split; [exact (proj1 H)|exact (proj1 (proj2 (proj2 (proj2 H))))].
Defined.

(** ** The timed measurement *)

Lemma SFltb_trans_zero (x y : spec_float) :
  SFltb (S754_zero false) x = true -> SFltb x y = true ->
  SFltb (S754_zero false) y = true.
Proof.
  destruct x as [[]|[]| |[] mx ex], y as [[]|[]| |[] my ey];
    cbn; try discriminate; try reflexivity.
Qed.

Lemma SFltb_asym (x y : spec_float) :
  SFltb x y = true -> SFltb y x = true -> False.
Proof.
  unfold SFltb.
  destruct x as [[]|[]| |[] mx ex], y as [[]|[]| |[] my ey];
    cbn; try discriminate.
  - destruct (Z.compare_spec ex ey), (Z.compare_spec ey ex);
      try discriminate; try lia.
    change (Pos.compare_cont Eq my mx) with (Pos.compare my mx).
    change (Pos.compare_cont Eq mx my) with (Pos.compare mx my).
    rewrite (Pos.compare_antisym mx my).
    destruct (Pos.compare mx my); cbn; discriminate.
  - destruct (Z.compare_spec ex ey), (Z.compare_spec ey ex);
      try discriminate; try lia.
    change (Pos.compare_cont Eq my mx) with (Pos.compare my mx).
    change (Pos.compare_cont Eq mx my) with (Pos.compare mx my).
    rewrite (Pos.compare_antisym mx my).
    destruct (Pos.compare mx my); cbn; discriminate.
Qed.

Section TimedMeasure.

Import Sketch.

Lemma maxWeightLoop_invariant (ms seen : list Z) (zo cf mw : Z) :
  zero_or_positive_sample seen zo cf mw ->
  zero_or_positive_sample (seen ++ ms) zo cf (maxWeightLoop ms zo cf mw).
Proof.
  revert seen mw. induction ms as [|m ms IH]; intros seen mw Hinv.
  - rewrite app_nil_r. exact Hinv.
  - cbn [maxWeightLoop].
    replace (seen ++ m :: ms) with ((seen ++ [m]) ++ ms)
      by (rewrite <- app_assoc; reflexivity).
    apply IH.
    destruct (F32.gtb (trueWeight m zo cf) mw) eqn:Hgt.
    + right. split.
      * destruct Hinv as [-> | [Hpos _]]; [exact Hgt|].
        unfold F32.gtb in *.
        exact (SFltb_trans_zero _ _ Hpos Hgt).
      * exists m. split; [apply in_or_app; right; left|]; reflexivity.
    + destruct Hinv as [-> | [Hpos [m' [Hin Hm']]]]; [left; reflexivity|].
      right. split; [exact Hpos|].
      exists m'. split; [apply in_or_app; left; exact Hin|exact Hm'].
Qed.

Lemma maxWeightLoop_never_negative (ms : list Z) (zo cf : Z) :
  let maxWeight := maxWeightLoop ms zo cf F32.zero in
  zero_or_positive_sample ms zo cf maxWeight /\
  F32.leb F32.zero maxWeight = true /\
  F32.ltb maxWeight F32.zero = false /\
  (forallb (fun m => F32.ltb (trueWeight m zo cf) F32.zero) ms = true ->
   maxWeight = F32.zero).
Proof.
  intros maxWeight.
  assert (Hinv : zero_or_positive_sample ms zo cf maxWeight).
  { apply (maxWeightLoop_invariant ms [] zo cf F32.zero).
    left. reflexivity. }
  split; [exact Hinv|]. split; [|split].
  - destruct Hinv as [-> | [Hpos _]]; [reflexivity|].
    unfold F32.gtb, F32.leb, SFltb, SFleb in *.
    destruct (SFcompare _ _) as [[]|]; try discriminate; reflexivity.
  - destruct Hinv as [-> | [Hpos _]]; [reflexivity|].
    destruct (F32.ltb maxWeight F32.zero) eqn:Hlt; [|reflexivity].
    exfalso. exact (SFltb_asym _ _ Hlt Hpos).
  - intros Hneg. destruct Hinv as [H0 | [Hpos [m [Hin Hm]]]]; [exact H0|].
    exfalso. rewrite forallb_forall in Hneg. specialize (Hneg m Hin).
    cbv beta in Hneg. rewrite <- Hm in Hneg.
    exact (SFltb_asym _ _ Hneg Hpos).
Qed.

Lemma timedMeasure_maxWeight (d : Device) :
  fst (timedMeasure d)
  = maxWeightLoop (fst (getReadings numMeasurements d))
      (wrap32 (getZeroOffset d)) (getCalibrationFactor d) F32.zero.
Proof.
  unfold timedMeasure. generalize numMeasurements. intros n.
  destruct (getReadings n d) as [ms d1]. reflexivity.
Qed.

(** C10: the maximum [timedMeasure] reports starts at 0.0 and is replaced
    only by a weight strictly above it, so it is 0.0 or a positive
    computed weight, never below 0; when every computed weight of the
    session is negative it is 0.0, not the largest of them. *)
Theorem timedMeasure_max_never_negative (d : Device) :
  let zo := wrap32 (getZeroOffset d) in
  let cf := getCalibrationFactor d in
  let measurements := fst (getReadings numMeasurements d) in
  let maxWeight := fst (timedMeasure d) in
  maxWeight = maxWeightLoop measurements zo cf F32.zero /\
  zero_or_positive_sample measurements zo cf maxWeight /\
  F32.leb F32.zero maxWeight = true /\
  F32.ltb maxWeight F32.zero = false /\
  (forallb (fun m => F32.ltb (trueWeight m zo cf) F32.zero) measurements
     = true ->
   maxWeight = F32.zero).
Proof.
  cbv zeta. rewrite (timedMeasure_maxWeight d).
  split; [reflexivity|].
  apply maxWeightLoop_never_negative.
Qed.

End TimedMeasure.

Lemma timedMeasure_max_never_negative_witness :
  forallb (fun m => F32.ltb (Sketch.trueWeight m 1000 1065353216) F32.zero)
          (fst (Sketch.getReadings Sketch.numMeasurements allNegative)) = true /\
  fst (Sketch.timedMeasure allNegative) = F32.zero.
Proof.
  assert (H : forallb
                (fun m => F32.ltb (Sketch.trueWeight m 1000 1065353216) F32.zero)
                (fst (Sketch.getReadings Sketch.numMeasurements allNegative))
              = true) by (vm_compute; reflexivity).
  split; [exact H|].
  exact (proj2 (proj2 (proj2 (proj2
           (timedMeasure_max_never_negative allNegative)))) H).
Defined.

(** ** The measurement characteristic *)

Section FloatArray.

Import Sketch.

Lemma length_bytes_of32 (v : Z) : length (bytes_of32 v) = 4%nat.
Proof. reflexivity. Qed.

Lemma length_concat_bytes (data : list Z) :
  length (concat (map bytes_of32 data)) = (length data * 4)%nat.
Proof.
  induction data as [|x data IH]; [reflexivity|].
  cbn [map concat]. rewrite length_app, IH, length_bytes_of32.
  cbn [length]. lia.
Qed.

Lemma memcpy_float_at_end (pre buf : list Z) (f : Z) :
  (4 <= length buf)%nat ->
  memcpy_float (pre ++ buf) (length pre) f
  = pre ++ bytes_of32 f ++ drop 4 buf.
Proof.
  intros Hlen. unfold memcpy_float.
  replace (length pre) with (length pre + 0)%nat by lia.
  rewrite list_inserts_app_r. f_equal.
  rewrite <- (take_drop 4 buf) at 1.
  apply list_inserts_0_r.
  rewrite length_take, length_bytes_of32. lia.
Qed.

Lemma copy_loop_spec (data pre buf : list Z) (i : nat) (sum : Z) :
  length pre = (i * 4)%nat ->
  (length data * 4 <= length buf)%nat ->
  copy_loop data i sum (pre ++ buf)
  = (fold_left F32.add data sum,
     pre ++ concat (map bytes_of32 data) ++ drop (length data * 4) buf).
Proof.
  revert pre buf i sum.
  induction data as [|x data IH]; intros pre buf i sum Hpre Hbuf.
  - cbn. rewrite drop_0. reflexivity.
  - cbn [copy_loop fold_left map concat length] in *.
    rewrite <- Hpre. rewrite memcpy_float_at_end by lia.
    rewrite (app_assoc pre).
    rewrite (IH (pre ++ bytes_of32 x) (drop 4 buf) (S i))
      by (rewrite ?length_app, ?length_drop, ?length_bytes_of32; lia).
    rewrite drop_drop, <- !app_assoc.
    reflexivity.
Qed.

(** Decoding looks at the low 32 bits only. *)
Lemma of_bits_mod (b : Z) : F32.of_bits (b mod 2 ^ 32) = F32.of_bits b.
Proof.
  unfold F32.of_bits.
  assert (Hs : (b mod 2 ^ 32) / 2 ^ 31 = (b / 2 ^ 31) mod 2).
  { change (2 ^ 32) with 4294967296. change (2 ^ 31) with 2147483648.
    Z.div_mod_to_equations. lia. }
  assert (He : ((b mod 2 ^ 32) / 2 ^ 23) mod 2 ^ 8 = (b / 2 ^ 23) mod 2 ^ 8).
  { change (2 ^ 32) with 4294967296. change (2 ^ 23) with 8388608.
    change (2 ^ 8) with 256. Z.div_mod_to_equations. lia. }
  assert (Hm : (b mod 2 ^ 32) mod 2 ^ 23 = b mod 2 ^ 23).
  { change (2 ^ 32) with 4294967296. change (2 ^ 23) with 8388608.
    Z.div_mod_to_equations. lia. }
  rewrite Hs, He, Hm, Zmod_odd.
  destruct (Z.odd (b / 2 ^ 31)); reflexivity.
Qed.

(** C8: the value set from N floats is (N+1)*4 bytes long, whatever the
    fresh buffer held: the N 4-byte patterns in order, followed by the 4
    bytes of their running [float] sum.  When that sum is a number or an
    infinity its pattern is determined, and the last 4 bytes are that
    pattern; when it is a NaN the last 4 bytes are a NaN, whose sign and
    payload are left open. *)
Theorem setFloatArrayValue_layout (junk : nat -> Z) (data32 : list Z) :
  4 * (Z.of_nat (length data32) + 1) < 2 ^ 32 ->
  let value := setFloatArrayValue junk data32 in
  let n := length data32 in
  let sum := fold_left F32.add data32 F32.zero in
  length value = ((n + 1) * 4)%nat /\
  take (n * 4) value = concat (map bytes_of32 data32) /\
  (F32.is_nan sum = false -> drop (n * 4) value = bytes_of32 sum) /\
  (F32.is_nan sum = true ->
   exists b0 b1 b2 b3,
     drop (n * 4) value = [b0; b1; b2; b3] /\
     F32.is_nan (word_of_bytes b0 b1 b2 b3) = true).
Proof.
  intros Hsize value n sum.
  assert (Hval : value = concat (map bytes_of32 data32) ++ bytes_of32 sum).
  { unfold value, sum, setFloatArrayValue. fold n.
    assert (Hb : (4 * Z.of_nat n) mod 2 ^ 32 = 4 * Z.of_nat n)
      by (apply Z.mod_small; lia).
    rewrite Hb.
    assert (Ht : (4 * Z.of_nat n + 4) mod 2 ^ 32 = Z.of_nat (n * 4 + 4))
      by (rewrite Z.mod_small; lia).
    rewrite Ht, Nat2Z.id.
    pose proof (copy_loop_spec data32 [] (new_uint8 junk (n * 4 + 4))
                  0 F32.zero eq_refl) as Hloop.
    cbn [app] in Hloop. fold n in Hloop.
    rewrite Hloop by (unfold new_uint8; rewrite length_map, length_seq; lia).
    assert (Hc : length (concat (map bytes_of32 data32)) = (n * 4)%nat)
      by apply length_concat_bytes.
    pose proof (memcpy_float_at_end (concat (map bytes_of32 data32))
                  (drop (n * 4) (new_uint8 junk (n * 4 + 4)))
                  (fold_left F32.add data32 F32.zero)) as Hsum.
    rewrite Hc in Hsum.
    rewrite Hsum
      by (unfold new_uint8; rewrite length_drop, length_map, length_seq; lia).
    rewrite drop_drop.
    rewrite (drop_ge (new_uint8 junk (n * 4 + 4)))
      by (unfold new_uint8; rewrite length_map, length_seq; lia).
    rewrite app_nil_r.
    apply take_ge.
    rewrite length_app, Hc, length_bytes_of32. lia. }
  assert (Hc : length (concat (map bytes_of32 data32)) = (n * 4)%nat)
    by apply length_concat_bytes.
  assert (Hdrop : drop (n * 4) value = bytes_of32 sum).
  { rewrite Hval, <- Hc. apply drop_app_length. }
  split; [|split; [|split]].
  - rewrite Hval, length_app, Hc, length_bytes_of32. lia.
  - rewrite Hval, <- Hc. apply take_app_length.
  - intros _. exact Hdrop.
  - intros Hnan.
    exists (byte_of sum 0), (byte_of sum 1), (byte_of sum 2), (byte_of sum 3).
    split; [exact Hdrop|].
    rewrite word_of_bytes_of32. unfold F32.is_nan in *.
    rewrite of_bits_mod. exact Hnan.
Qed.

End FloatArray.

Lemma setFloatArrayValue_layout_witness :
  4 * (Z.of_nat (length [1065353216; 1073741824]) + 1) < 2 ^ 32 /\
  F32.is_nan (fold_left F32.add [1065353216; 1073741824] F32.zero) = false /\
  drop 8 (Sketch.setFloatArrayValue (fun _ => 170) [1065353216; 1073741824])
  = [0; 0; 64; 64].
Proof.
  split; [reflexivity|]. split; [reflexivity|].
  exact (proj1 (proj2 (proj2
           (setFloatArrayValue_layout (fun _ => 170)
              [1065353216; 1073741824] eq_refl))) eq_refl).
Defined.

(** ** Rounding in binary32 *)

Lemma digits2_pos_size (p : positive) : digits2_pos p = Pos.size p.
Proof. induction p; cbn; congruence. Qed.

Lemma Zdigits2_gt (m : Z) : 0 <= m -> m < 2 ^ Zdigits2 m.
Proof.
  destruct m as [|p|p]; intros H; [reflexivity| |lia].
  cbn [Zdigits2]. rewrite digits2_pos_size.
  pose proof (Pos.size_gt p) as Hs.
  apply Pos2Z.pos_lt_pos in Hs. rewrite Pos2Z.inj_pow in Hs. exact Hs.
Qed.

Lemma Zdigits2_nonneg (m : Z) : 0 <= Zdigits2 m.
Proof. destruct m; cbn; lia. Qed.

Lemma loc_of_shr_record_of_loc (m : Z) (l : location) :
  loc_of_shr_record (shr_record_of_loc m l) = l /\
  shr_m (shr_record_of_loc m l) = m.
Proof. destruct l as [|[]]; split; reflexivity. Qed.

Lemma shr_1_located (N D : Z) (mrs : shr_record) :
  0 < D -> 0 <= shr_m mrs ->
  located N D (shr_m mrs) (loc_of_shr_record mrs) ->
  located N (D * 2) (shr_m (shr_1 mrs)) (loc_of_shr_record (shr_1 mrs)) /\
  0 <= shr_m (shr_1 mrs).
Proof.
  intros HD Hm. destruct mrs as [m r s]. cbn [shr_m] in Hm |- *.
  destruct m as [|[p|p|]|p]; try lia;
    destruct r, s; cbn [shr_1 orb shr_m loc_of_shr_record located];
    try change (Z.pos p~1) with (2 * Z.pos p + 1);
    try change (Z.pos p~0) with (2 * Z.pos p);
    intros H; (split; [|lia]); compare_cases;
    repeat split; first [reflexivity | lia | exfalso; lia].
Qed.

Lemma iter_pos_shr_1_located (p : positive) :
  forall (N D : Z) (mrs : shr_record),
  0 < D -> 0 <= shr_m mrs ->
  located N D (shr_m mrs) (loc_of_shr_record mrs) ->
  located N (D * 2 ^ Zpos p) (shr_m (SpecFloat.iter_pos shr_1 p mrs))
    (loc_of_shr_record (SpecFloat.iter_pos shr_1 p mrs)) /\
  0 <= shr_m (SpecFloat.iter_pos shr_1 p mrs).
Proof.
  induction p as [p IH|p IH|]; intros N D mrs HD Hm Hl; cbn [SpecFloat.iter_pos].
  - destruct (shr_1_located N D mrs HD Hm Hl) as [H1 H1'].
    destruct (IH N (D * 2) _ ltac:(lia) H1' H1) as [H2 H2'].
    assert (Hp : 0 < 2 ^ Z.pos p) by (apply Z.pow_pos_nonneg; lia).
    destruct (IH N (D * 2 * 2 ^ Z.pos p) _ ltac:(nia) H2' H2) as [H3 H3'].
    split; [|exact H3'].
    replace (D * 2 ^ Z.pos p~1) with (D * 2 * 2 ^ Z.pos p * 2 ^ Z.pos p);
      [exact H3|].
    replace (Z.pos p~1) with (Z.pos p + Z.pos p + 1) by lia.
    rewrite !Z.pow_add_r by lia. change (2 ^ 1) with 2. ring.
  - assert (Hp : 0 < 2 ^ Z.pos p) by (apply Z.pow_pos_nonneg; lia).
    destruct (IH N D _ HD Hm Hl) as [H2 H2'].
    destruct (IH N (D * 2 ^ Z.pos p) _ ltac:(nia) H2' H2) as [H3 H3'].
    split; [|exact H3'].
    replace (D * 2 ^ Z.pos p~0) with (D * 2 ^ Z.pos p * 2 ^ Z.pos p);
      [exact H3|].
    replace (Z.pos p~0) with (Z.pos p + Z.pos p) by lia.
    rewrite !Z.pow_add_r by lia. ring.
  - change (2 ^ 1) with 2. apply shr_1_located; assumption.
Qed.

(** A right shift by [max 0 n] places keeps the location. *)
Lemma shr_located (N D : Z) (mrs : shr_record) (e n : Z) :
  0 < D -> 0 <= shr_m mrs ->
  located N D (shr_m mrs) (loc_of_shr_record mrs) ->
  let k := Z.max 0 n in
  snd (shr mrs e n) = e + k /\
  located N (D * 2 ^ k) (shr_m (fst (shr mrs e n)))
    (loc_of_shr_record (fst (shr mrs e n))) /\
  0 <= shr_m (fst (shr mrs e n)).
Proof.
  intros HD Hm Hl k. unfold shr, k.
  destruct n as [|p|p]; cbn [fst snd].
  - rewrite Z.max_id, Z.add_0_r, Z.pow_0_r, Z.mul_1_r. auto.
  - rewrite Z.max_r by lia.
    destruct (iter_pos_shr_1_located p N D mrs HD Hm Hl). auto.
  - rewrite Z.max_l by lia. rewrite Z.add_0_r, Z.pow_0_r, Z.mul_1_r. auto.
Qed.

Lemma round_nearest_even_located (N D m : Z) (l : location) :
  0 < D -> located N D m l ->
  let m' := round_nearest_even m l in
  m <= m' <= m + 1 /\ - D <= 2 * (m' * D - N) <= D.
Proof.
  intros HD Hl. destruct l as [|[]]; cbn [round_nearest_even located] in *.
  - subst N. lia.
  - compare_cases. destruct (Z.even m); lia.
  - compare_cases. lia.
  - compare_cases. lia.
Qed.

Lemma shr_fexp_located (prec emax N D m e : Z) (l : location) :
  0 < D -> 0 <= m -> located N D m l ->
  let r := shr_fexp prec emax m e l in
  let k := Z.max 0 (fexp prec emax (Zdigits2 m + e) - e) in
  snd r = e + k /\
  located N (D * 2 ^ k) (shr_m (fst r)) (loc_of_shr_record (fst r)) /\
  0 <= shr_m (fst r).
Proof.
  intros HD Hm Hl. unfold shr_fexp.
  destruct (loc_of_shr_record_of_loc m l) as [H1 H2].
  apply shr_located; [exact HD|rewrite H2; exact Hm|].
  rewrite H1, H2. exact Hl.
Qed.

Lemma located_floor (N D m : Z) (l : location) :
  0 < D -> located N D m l -> m * D <= N < (m + 1) * D.
Proof. intros HD. destruct l; cbn [located]; lia. Qed.

(** What a finite result of [binary_round_aux] says about the number
    [N / D * 2 ^ e] that was rounded. *)
Lemma binary_round_aux_finite
    (prec emax : Z) (sx : bool) (N D m e : Z) (l : location)
    (s : bool) (mz : positive) (ez : Z) :
  0 < prec -> 0 < D -> 0 <= m -> located N D m l ->
  binary_round_aux prec emax sx m e l = S754_finite s mz ez ->
  s = sx /\
  Zpos mz < 2 ^ prec /\
  emin prec emax <= ez <= emax - prec /\
  exists k : Z,
    0 <= k /\ ez = e + k /\
    - 3 * (D * 2 ^ k) <= 2 * (Zpos mz * (D * 2 ^ k) - N) <= D * 2 ^ k.
Proof.
  intros Hprec HD Hm Hl. unfold binary_round_aux.
  pose proof (shr_fexp_located prec emax N D m e l HD Hm Hl) as H1.
  destruct (shr_fexp prec emax m e l) as [mrs1 e1]. cbn [fst snd] in H1.
  set (k1 := Z.max 0 (fexp prec emax (Zdigits2 m + e) - e)) in *.
  destruct H1 as (He1 & Hl1 & Hm1).
  assert (Hk1 : 0 <= k1) by (unfold k1; lia).
  assert (Hp1 : 0 < 2 ^ k1) by (apply Z.pow_pos_nonneg; lia).
  assert (HD1 : 0 < D * 2 ^ k1) by nia.
  pose proof (round_nearest_even_located N (D * 2 ^ k1) _ _ HD1 Hl1) as Hr.
  set (mr := round_nearest_even (shr_m mrs1) (loc_of_shr_record mrs1)) in *.
  cbv zeta in Hr. destruct Hr as [Hr1 Hr2].
  assert (Hmr : 0 <= mr) by lia.
  pose proof (shr_fexp_located prec emax mr 1 mr e1 loc_Exact
                ltac:(lia) Hmr ltac:(cbn; lia)) as H2.
  destruct (shr_fexp prec emax mr e1 loc_Exact) as [mrs2 e2].
  cbn [fst snd] in H2.
  set (k2 := Z.max 0 (fexp prec emax (Zdigits2 mr + e1) - e1)) in *.
  destruct H2 as (He2 & Hl2 & Hm2).
  assert (Hk2 : 0 <= k2) by (unfold k2; lia).
  assert (Hp2 : 0 < 2 ^ k2) by (apply Z.pow_pos_nonneg; lia).
  apply located_floor in Hl2; [|lia].
  destruct (shr_m mrs2) as [|p|p] eqn:Hz; try discriminate.
  destruct (e2 <=? emax - prec) eqn:Hle; try discriminate.
  intros Hres. injection Hres as -> -> ->.
  apply Z.leb_le in Hle.
  assert (Hfexp : fexp prec emax (Zdigits2 mr + e1) <= ez)
    by (rewrite He2; unfold k2; lia).
  split; [reflexivity|]. split; [|split].
  - (* the mantissa fits *)
    pose proof (Zdigits2_gt mr Hmr) as Hd.
    pose proof (Zdigits2_nonneg mr) as Hd0.
    assert (Hdk : Zdigits2 mr <= prec + k2)
      by (unfold fexp in Hfexp; lia).
    assert (Hpow : 2 ^ Zdigits2 mr <= 2 ^ (prec + k2))
      by (apply Z.pow_le_mono_r; lia).
    rewrite Z.pow_add_r in Hpow by lia.
    assert (Hpp : 0 < 2 ^ prec) by (apply Z.pow_pos_nonneg; lia).
    nia.
  - unfold fexp in Hfexp. lia.
  - exists (k1 + k2). split; [lia|]. split; [lia|].
    rewrite Z.pow_add_r by lia.
    nia.
Qed.

Lemma new_location_located (D q r : Z) :
  0 < D -> 0 <= r < D -> located (q * D + r) D q (new_location D r).
Proof.
  intros HD Hr. unfold new_location, new_location_even, new_location_odd.
  destruct (Z.even D) eqn:Hev.
  - destruct (Z.eqb_spec r 0) as [->|Hr0]; cbn [located]; [lia|].
    split; [lia|]. f_equal. lia.
  - destruct (Z.eqb_spec r 0) as [->|Hr0]; cbn [located]; [lia|].
    split; [lia|].
    assert (Hodd : Z.odd D = true) by (rewrite <- Z.negb_even, Hev; reflexivity).
    apply Z.odd_spec in Hodd. destruct Hodd as [h Hh].
    replace (2 * (q * D + r - q * D)) with (2 * r) by lia.
    destruct (Z.compare_spec (2 * r + 1) D), (Z.compare_spec (2 * r) D);
      try reflexivity; lia.
Qed.

Lemma SFdiv_core_binary_located (prec emax m1 e1 m2 e2 : Z) :
  0 < m1 -> 0 < m2 ->
  let r := SFdiv_core_binary prec emax m1 e1 m2 e2 in
  exists a : Z,
    0 <= a /\ snd (fst r) + a = e1 - e2 /\
    located (m1 * 2 ^ a) m2 (fst (fst r)) (snd r) /\
    0 <= fst (fst r).
Proof.
  intros H1 H2. unfold SFdiv_core_binary.
  set (e' := Z.min _ (e1 - e2)).
  set (a := e1 - e2 - e').
  assert (Ha : 0 <= a) by (unfold a, e'; lia).
  set (m' := match a with Z.pos _ => Z.shiftl m1 a | 0 => m1 | Z.neg _ => 0 end).
  assert (Hm' : m' = m1 * 2 ^ a).
  { unfold m'. destruct a as [|p|p]; [rewrite Z.pow_0_r; lia| |lia].
    apply Z.shiftl_mul_pow2. lia. }
  pose proof (Z_div_mod m' m2 ltac:(lia)) as Hdiv.
  destruct (Z.div_eucl m' m2) as [q r]. cbn [fst snd].
  destruct Hdiv as [Hq Hr].
  assert (Hp : 0 < 2 ^ a) by (apply Z.pow_pos_nonneg; lia).
  exists a. split; [exact Ha|]. split; [unfold a; lia|]. split.
  - rewrite <- Hm', Hq. replace (m2 * q + r) with (q * m2 + r) by ring.
    apply new_location_located; lia.
  - assert (0 <= m') by nia. nia.
Qed.

(** A finite quotient, in integers: with [T = my * 2 ^ b] and
    [N = mx * 2 ^ a], the mantissa [mz] is within 3/2 of [N / T], at the
    exponent that makes [N / T] the exact quotient. *)
Lemma SFdiv_finite (prec emax : Z) (sx sy s : bool) (mx my mz : positive)
    (ex ey ez : Z) :
  0 < prec ->
  SFdiv prec emax (S754_finite sx mx ex) (S754_finite sy my ey)
    = S754_finite s mz ez ->
  s = xorb sx sy /\
  Zpos mz < 2 ^ prec /\
  emin prec emax <= ez <= emax - prec /\
  exists a b : Z,
    0 <= a /\ 0 <= b /\ ez + ey + a = ex + b /\
    - 3 * (Zpos my * 2 ^ b)
      <= 2 * (Zpos mz * (Zpos my * 2 ^ b) - Zpos mx * 2 ^ a)
      <= Zpos my * 2 ^ b.
Proof.
  intros Hprec. cbn [SFdiv].
  pose proof (SFdiv_core_binary_located prec emax (Zpos mx) ex (Zpos my) ey
                ltac:(lia) ltac:(lia)) as Hcore.
  destruct (SFdiv_core_binary prec emax (Zpos mx) ex (Zpos my) ey)
    as [[q e'] l].
  cbn [fst snd] in Hcore. destruct Hcore as (a & Ha & He' & Hl & Hq).
  intros Hres.
  destruct (binary_round_aux_finite prec emax (xorb sx sy)
              (Zpos mx * 2 ^ a) (Zpos my) q e' l s mz ez
              Hprec ltac:(lia) Hq Hl Hres)
    as (Hs & Hmz & Hez & k & Hk & Hezk & Hb).
  split; [exact Hs|]. split; [exact Hmz|]. split; [exact Hez|].
  exists a, k. repeat split; try lia.
Qed.

Lemma two_power_pos (e : Z) : (0 < 2 ^ e)%Q.
Proof. apply Qpower_0_lt. reflexivity. Qed.

Lemma two_power_add (a b : Z) : (2 ^ (a + b) == 2 ^ a * 2 ^ b)%Q.
Proof. apply Qpower_plus. discriminate. Qed.

Lemma inject_two_power (a : Z) : 0 <= a -> (inject_Z (2 ^ a) == 2 ^ a)%Q.
Proof. intros Ha. rewrite (Zpower_Qpower 2 a Ha). reflexivity. Qed.

Lemma Qabs_inject_Z (z : Z) : Qabs (inject_Z z) = inject_Z (Z.abs z).
Proof. destruct z; reflexivity. Qed.

(** The quotient of two binary32 numbers, when it is a normal number, is
    within a relative 2^-22 of the exact quotient: |r * y - x| <= 2^-22 x
    on the magnitudes. *)
Lemma SFdiv_accurate (sx sy s : bool) (mx my mz : positive) (ex ey ez : Z) :
  SFdiv F32.prec F32.emax (S754_finite sx mx ex) (S754_finite sy my ey)
    = S754_finite s mz ez ->
  2 ^ 23 <= Zpos mz ->
  (Qabs (F32.SF_mag (S754_finite s mz ez) * F32.SF_mag (S754_finite sy my ey)
         - F32.SF_mag (S754_finite sx mx ex))
   <= (1 # 4194304) * F32.SF_mag (S754_finite sx mx ex))%Q.
Proof.
  intros Hres Hnorm.
  assert (Hprec : 0 < F32.prec) by reflexivity.
  destruct (SFdiv_finite _ _ _ _ _ _ _ _ _ _ _ Hprec Hres)
    as (_ & _ & _ & a & b & Ha & Hb & He & Hbr).
  cbn [F32.SF_mag].
  set (T := Zpos my * 2 ^ b) in *. set (N := Zpos mx * 2 ^ a) in *.
  assert (Hpa : 0 < 2 ^ a) by (apply Z.pow_pos_nonneg; lia).
  assert (Hpb : 0 < 2 ^ b) by (apply Z.pow_pos_nonneg; lia).
  assert (HT : 0 < T) by (unfold T; nia).
  assert (HN : 0 < N) by (unfold N; nia).
  assert (Hx : (inject_Z (Zpos mx) * 2 ^ ex == inject_Z N * 2 ^ (ex - a))%Q).
  { unfold N. rewrite inject_Z_mult, inject_two_power by lia.
    replace ex with (a + (ex - a)) at 1 by lia.
    rewrite two_power_add. ring. }
  assert (Hr : (inject_Z (Zpos mz) * 2 ^ ez * (inject_Z (Zpos my) * 2 ^ ey)
                == inject_Z (Zpos mz * T) * 2 ^ (ex - a))%Q).
  { unfold T. rewrite !inject_Z_mult, inject_two_power by lia.
    transitivity (inject_Z (Zpos mz) * inject_Z (Zpos my) * 2 ^ (ez + ey))%Q.
    - rewrite two_power_add. ring.
    - replace (ez + ey) with (b + (ex - a)) by lia.
      rewrite two_power_add. ring. }
  rewrite Hr, Hx.
  assert (Hd : (inject_Z (Zpos mz * T) * 2 ^ (ex - a)
                - inject_Z N * 2 ^ (ex - a)
                == inject_Z (Zpos mz * T - N) * 2 ^ (ex - a))%Q).
  { replace (Zpos mz * T - N) with (Zpos mz * T + - N) by lia.
    rewrite inject_Z_plus, inject_Z_opp. ring. }
  rewrite Hd, Qabs_Qmult, Qabs_inject_Z.
  rewrite (Qabs_pos (2 ^ (ex - a)))
    by (apply Qlt_le_weak, two_power_pos).
  rewrite Qmult_assoc.
  apply Qmult_le_compat_r; [|apply Qlt_le_weak, two_power_pos].
  assert (Hint : 4194304 * Z.abs (Zpos mz * T - N) <= N).
  { change (2 ^ 23) with 8388608 in Hnorm.
    assert (8388608 * T <= Zpos mz * T) by nia. lia. }
  unfold Qle, Qmult, inject_Z. cbn [Qnum Qden].
  rewrite !Z.mul_1_r, Z.mul_1_l. cbn [Pos.mul]. lia.
Qed.

(** ** Patterns and numbers *)

Lemma of_bits_to_bits_normal (s : bool) (m : positive) (e : Z) :
  2 ^ 23 <= Zpos m < 2 ^ 24 -> -149 <= e <= 104 ->
  F32.of_bits (F32.to_bits (S754_finite s m e)) = S754_finite s m e /\
  F32.is_normal (F32.to_bits (S754_finite s m e)) = true.
Proof.
  intros Hm He. unfold F32.to_bits.
  destruct (Z.ltb_spec (Zpos m) (2 ^ 23)) as [Hlt|_]; [lia|].
  set (b := F32.sign_bit s + (e + 150) * 2 ^ 23 + (Zpos m - 2 ^ 23)).
  assert (Hs : b / 2 ^ 31 = if s then 1 else 0).
  { unfold b, F32.sign_bit. revert Hm.
    change (2 ^ 31) with 2147483648. change (2 ^ 23) with 8388608.
    change (2 ^ 24) with 16777216. intros Hm.
    destruct s; Z.div_mod_to_equations; lia. }
  assert (Hf : (b / 2 ^ 23) mod 2 ^ 8 = e + 150).
  { unfold b, F32.sign_bit. revert Hm.
    change (2 ^ 31) with 2147483648. change (2 ^ 23) with 8388608.
    change (2 ^ 24) with 16777216. change (2 ^ 8) with 256. intros Hm.
    destruct s; Z.div_mod_to_equations; lia. }
  assert (Hfr : b mod 2 ^ 23 = Zpos m - 2 ^ 23).
  { unfold b, F32.sign_bit. revert Hm.
    change (2 ^ 31) with 2147483648. change (2 ^ 23) with 8388608.
    change (2 ^ 24) with 16777216. intros Hm.
    destruct s; Z.div_mod_to_equations; lia. }
  split.
  - unfold F32.of_bits. rewrite Hs, Hf, Hfr.
    destruct (Z.eqb_spec (e + 150) 0) as [H0|_]; [lia|].
    destruct (Z.eqb_spec (e + 150) 255) as [H0|_]; [lia|].
    replace (Zpos m - 2 ^ 23 + 2 ^ 23) with (Zpos m) by lia.
    replace (e + 150 - 150) with e by lia.
    destruct s; reflexivity.
  - unfold F32.is_normal. rewrite Hf.
    apply andb_true_intro. split; apply Z.leb_le; lia.
Qed.

Lemma is_normal_to_bits (y : spec_float) :
  (forall s m e, y = S754_finite s m e ->
     Zpos m < 2 ^ 24 /\ -149 <= e <= 104) ->
  F32.is_normal (F32.to_bits y) = true ->
  exists s m e, y = S754_finite s m e /\ 2 ^ 23 <= Zpos m /\
                F32.of_bits (F32.to_bits y) = y.
Proof.
  intros Hy Hn. destruct y as [[]|[]| |s m e]; try discriminate Hn.
  destruct (Hy s m e eq_refl) as [Hm He].
  destruct (Z.ltb_spec (Zpos m) (2 ^ 23)) as [Hlt|Hge].
  - exfalso. unfold F32.to_bits in Hn.
    destruct (Z.ltb_spec (Zpos m) (2 ^ 23)) as [_|?]; [|lia].
    unfold F32.is_normal in Hn.
    assert (Hf : ((F32.sign_bit s + Zpos m) / 2 ^ 23) mod 2 ^ 8 = 0).
    { unfold F32.sign_bit. revert Hlt.
      change (2 ^ 31) with 2147483648. change (2 ^ 23) with 8388608.
      change (2 ^ 8) with 256. intros Hlt.
      destruct s; Z.div_mod_to_equations; lia. }
    rewrite Hf in Hn. discriminate Hn.
  - exists s, m, e. split; [reflexivity|]. split; [exact Hge|].
    apply of_bits_to_bits_normal; lia.
Qed.

Lemma SF_mag_pos (s : bool) (m : positive) (e : Z) :
  (0 < F32.SF_mag (S754_finite s m e))%Q.
Proof.
  cbn [F32.SF_mag]. apply Qmult_lt_0_compat; [reflexivity|apply two_power_pos].
Qed.

Lemma mag_pos (a : Z) : F32.is_number a = true -> (0 < F32.mag a)%Q.
Proof.
  unfold F32.is_number, F32.mag.
  destruct (F32.of_bits a); try discriminate. intros _. apply SF_mag_pos.
Qed.

Lemma to_Q_sign_mag (a : Z) :
  (F32.to_Q a == (if F32.sign a then -1 else 1) * F32.mag a)%Q.
Proof.
  unfold F32.to_Q, F32.sign, F32.mag.
  destruct (F32.of_bits a) as [[]|[]| |[] m e]; cbn [F32.SF_mag cond_Zopp];
    try reflexivity.
  - change (Z.neg m) with (- Zpos m)%Z. rewrite inject_Z_opp. ring.
  - ring.
Qed.

(** A quotient that is a normal number: its sign, and its distance from
    the exact quotient. *)
Lemma div_normal (a b : Z) :
  F32.is_number a = true -> F32.is_number b = true ->
  F32.is_normal (F32.div a b) = true ->
  F32.is_number (F32.div a b) = true /\
  F32.sign (F32.div a b) = xorb (F32.sign a) (F32.sign b) /\
  (Qabs (F32.mag (F32.div a b) * F32.mag b - F32.mag a)
   <= (1 # 4194304) * F32.mag a)%Q.
Proof.
  unfold F32.is_number, F32.div, F32.sign, F32.mag.
  destruct (F32.of_bits a) as [| | |sa ma ea]; try discriminate.
  destruct (F32.of_bits b) as [| | |sb mb eb]; try discriminate.
  intros _ _ Hn.
  assert (Hprec : 0 < F32.prec) by reflexivity.
  assert (Hb : forall s m e,
             SFdiv F32.prec F32.emax (S754_finite sa ma ea)
               (S754_finite sb mb eb) = S754_finite s m e ->
             Zpos m < 2 ^ 24 /\ -149 <= e <= 104).
  { intros s m e H.
    destruct (SFdiv_finite _ _ _ _ _ _ _ _ _ _ _ Hprec H)
      as (_ & Hm & He & _).
    split; [exact Hm|exact He]. }
  destruct (is_normal_to_bits _ Hb Hn)
    as (s & m & e & Hy & Hm & Hrt).
  rewrite Hrt, Hy.
  destruct (SFdiv_finite _ _ _ _ _ _ _ _ _ _ _ Hprec Hy) as (Hs & _).
  split; [reflexivity|]. split; [exact Hs|].
  apply (SFdiv_accurate sa sb s ma mb m ea eb e Hy Hm).
Qed.

(** ** Conversion of an integer *)

Lemma Zdigits2_le (p : positive) : 2 ^ (Zpos (digits2_pos p) - 1) <= Zpos p.
Proof.
  rewrite digits2_pos_size.
  pose proof (Pos.size_le p) as Hs.
  apply Pos2Z.pos_le_pos in Hs. rewrite Pos2Z.inj_pow in Hs.
  change (Z.pos p~0) with (2 * Z.pos p) in Hs.
  replace (Z.pos (Pos.size p)) with (1 + (Z.pos (Pos.size p) - 1)) in Hs by lia.
  rewrite Z.pow_add_r in Hs by lia. change (2 ^ 1) with 2 in Hs. lia.
Qed.

Lemma iter_xO (k m : positive) :
  digits2_pos (Pos.iter xO m k) = (digits2_pos m + k)%positive /\
  Zpos (Pos.iter xO m k) = Zpos m * 2 ^ Zpos k.
Proof.
  induction k as [|k IH] using Pos.peano_ind.
  - cbn [Pos.iter digits2_pos]. split; [lia|].
    change (2 ^ 1) with 2. lia.
  - rewrite Pos.iter_succ. destruct IH as [IH1 IH2]. cbn [digits2_pos].
    rewrite IH1. split; [lia|].
    change (Z.pos (Pos.iter xO m k)~0) with (2 * Z.pos (Pos.iter xO m k)).
    rewrite IH2, Pos2Z.inj_succ, Z.pow_succ_r by lia. ring.
Qed.

Lemma binary_round_aux_canonical (prec emax : Z) (s : bool) (m : positive)
    (e : Z) :
  fexp prec emax (Zpos (digits2_pos m) + e) = e -> e <= emax - prec ->
  binary_round_aux prec emax s (Zpos m) e loc_Exact = S754_finite s m e.
Proof.
  intros Hc He. unfold binary_round_aux, shr_fexp.
  cbn [Zdigits2 shr_record_of_loc]. rewrite Hc, Z.sub_diag.
  cbn [shr shr_m loc_of_shr_record round_nearest_even Zdigits2
       shr_record_of_loc].
  rewrite Hc, Z.sub_diag. cbn [shr shr_m].
  apply Z.leb_le in He. rewrite He. reflexivity.
Qed.

(** A positive integer below 2^24 converts to the normal number with 24
    digits that is equal to it. *)
Lemma binary_round_small (s : bool) (p : positive) :
  Zpos p < 2 ^ 24 ->
  exists (m : positive) (k : Z),
    binary_round F32.prec F32.emax s p 0 = S754_finite s m (- k) /\
    0 <= k <= 23 /\ Zpos m = Zpos p * 2 ^ k /\ 2 ^ 23 <= Zpos m < 2 ^ 24.
Proof.
  intros Hp. unfold binary_round.
  pose proof (Zdigits2_le p) as Hlo.
  pose proof (Zdigits2_gt (Zpos p) ltac:(lia)) as Hhi. cbn [Zdigits2] in Hhi.
  set (dg := Zpos (digits2_pos p)) in *.
  assert (Hdg : 1 <= dg <= 24).
  { split; [unfold dg; lia|].
    destruct (Z_le_gt_dec dg 24) as [H|H]; [exact H|exfalso].
    assert (2 ^ 24 <= 2 ^ (dg - 1)) by (apply Z.pow_le_mono_r; lia). lia. }
  assert (Hf : fexp F32.prec F32.emax (dg + 0) = dg - 24)
    by (unfold fexp, emin, F32.prec, F32.emax; lia).
  rewrite Hf. unfold shl_align.
  destruct (dg - 24 - 0) as [|k|k] eqn:Hk; try lia.
  - (* already 24 digits *)
    exists p, 0. rewrite binary_round_aux_canonical.
    + replace (- 0) with 0 by lia. split; [reflexivity|].
      split; [lia|]. split; [rewrite Z.pow_0_r; lia|].
      replace dg with 24 in * by lia. change (2 ^ (24 - 1)) with (2 ^ 23) in Hlo.
      lia.
    + fold dg. rewrite Hf. lia.
    + unfold F32.emax, F32.prec. lia.
  - destruct (iter_xO k p) as [Hd Hv].
    exists (Pos.iter xO p k), (Zpos k).
    assert (He : dg - 24 = - Zpos k) by lia.
    rewrite binary_round_aux_canonical.
    + rewrite He. split; [reflexivity|]. split; [lia|]. split; [exact Hv|].
      rewrite Hv.
      assert (Hk24 : Zpos k = 24 - dg) by lia.
      assert (H23 : 2 ^ 23 = 2 ^ (dg - 1) * 2 ^ Zpos k)
        by (rewrite <- Z.pow_add_r by lia; f_equal; lia).
      assert (H24 : 2 ^ 24 = 2 ^ dg * 2 ^ Zpos k)
        by (rewrite <- Z.pow_add_r by lia; f_equal; lia).
      assert (Hpk : 0 < 2 ^ Zpos k) by (apply Z.pow_pos_nonneg; lia).
      rewrite H23, H24. nia.
    + rewrite Hd, Pos2Z.inj_add. fold dg.
      unfold fexp, emin, F32.prec, F32.emax. lia.
    + unfold F32.emax, F32.prec. lia.
Qed.

Lemma of_int_exact (d : Z) :
  d <> 0 -> Z.abs d < 2 ^ 24 ->
  F32.is_number (F32.of_int d) = true /\
  F32.sign (F32.of_int d) = (d <? 0) /\
  (F32.mag (F32.of_int d) == inject_Z (Z.abs d))%Q.
Proof.
  intros Hd Habs. unfold F32.of_int, binary_normalize.
  assert (Hgen : forall (s : bool) (p : positive),
            Zpos p < 2 ^ 24 ->
            let a := F32.to_bits (binary_round F32.prec F32.emax s p 0) in
            F32.is_number a = true /\ F32.sign a = s /\
            (F32.mag a == inject_Z (Zpos p))%Q).
  { intros s p Hp a. unfold a.
    destruct (binary_round_small s p Hp) as (m & k & Hr & Hk & Hv & Hm).
    rewrite Hr. unfold F32.is_number, F32.sign, F32.mag.
    destruct (of_bits_to_bits_normal s m (- k) Hm ltac:(lia)) as [Hrt _].
    rewrite Hrt. cbn [F32.SF_mag]. split; [reflexivity|]. split; [reflexivity|].
    rewrite Hv, inject_Z_mult, inject_two_power by lia.
    rewrite <- Qmult_assoc, <- two_power_add.
    replace (k + - k) with 0 by lia. change (2 ^ 0)%Q with 1%Q. ring. }
  destruct d as [|p|p]; [congruence| |].
  - destruct (Hgen false p Habs) as (H1 & H2 & H3). auto.
  - destruct (Hgen true p Habs) as (H1 & H2 & H3). auto.
Qed.

(** ** Quotients on patterns *)

Lemma quotient_bound (x y g : Q) :
  (0 < x -> 0 < y ->
   Qabs (g * y - x) <= (1 # 4194304) * x ->
   Qabs (g - x / y) <= (1 # 4194304) * (x / y))%Q.
Proof.
  intros Hx Hy H.
  assert (Hy0 : ~ (y == 0)%Q) by (intros E; rewrite E in Hy; discriminate).
  assert (E1 : ((g - x / y) * y == g * y - x)%Q) by (field; exact Hy0).
  assert (E2 : ((1 # 4194304) * (x / y) * y == (1 # 4194304) * x)%Q)
    by (field; exact Hy0).
  apply Qabs_Qle_condition in H. apply Qabs_Qle_condition.
  destruct H as [Ha Hb]. split; apply (Qmult_le_r _ _ y Hy).
  - assert (E3 : (- ((1 # 4194304) * (x / y)) * y
                  == - ((1 # 4194304) * x))%Q) by (field; exact Hy0).
    rewrite E1, E3. exact Ha.
  - rewrite E1, E2. exact Hb.
Qed.

Lemma signed_quotient (sa sb : bool) (x y g : Q) :
  (0 < y ->
   Qabs ((if xorb sa sb then -1 else 1) * g
         - ((if sa then -1 else 1) * x) / ((if sb then -1 else 1) * y))
   == Qabs (g - x / y) /\
   Qabs (((if sa then -1 else 1) * x) / ((if sb then -1 else 1) * y))
   == Qabs (x / y))%Q.
Proof.
  intros Hy.
  assert (Hy0 : ~ (y == 0)%Q) by (intros E; rewrite E in Hy; discriminate).
  destruct sa, sb; cbn [xorb]; split.
  all: try (apply Qabs_wd; field; exact Hy0).
  all: rewrite <- Qabs_opp; apply Qabs_wd; field; exact Hy0.
Qed.

(** The quotient of two numbers, when it is a normal number, is within a
    relative 2^-22 of the exact quotient. *)
Lemma div_accurate (a b : Z) :
  F32.is_number a = true -> F32.is_number b = true ->
  F32.is_normal (F32.div a b) = true ->
  (Qabs (F32.to_Q (F32.div a b) - F32.to_Q a / F32.to_Q b)
   <= (1 # 4194304) * Qabs (F32.to_Q a / F32.to_Q b))%Q.
Proof.
  intros Ha Hb Hn.
  destruct (div_normal a b Ha Hb Hn) as (Hnum & Hs & Hacc).
  pose proof (mag_pos a Ha) as Hx.
  pose proof (mag_pos b Hb) as Hy.
  rewrite !to_Q_sign_mag, Hs.
  destruct (signed_quotient (F32.sign a) (F32.sign b)
              (F32.mag a) (F32.mag b) (F32.mag (F32.div a b)) Hy) as [E1 E2].
  rewrite E1, E2.
  rewrite (Qabs_pos (F32.mag a / F32.mag b)).
  - apply quotient_bound; assumption.
  - apply Qlt_le_weak, Qlt_shift_div_l; [exact Hy|].
    rewrite Qmult_0_l. exact Hx.
Qed.

Lemma recovered_bound (x y f g : Q) :
  (0 < x -> 0 < y -> 0 < f -> 0 < g ->
   Qabs (f * y - x) <= (1 # 4194304) * x ->
   Qabs (g * f - x) <= (1 # 4194304) * x ->
   Qabs (g - y) <= (1 # 1048576) * y)%Q.
Proof.
  intros Hx Hy Hf Hg H1 H2.
  apply Qabs_Qle_condition in H1. apply Qabs_Qle_condition in H2.
  apply Qabs_Qle_condition.
  destruct H1 as [H1a H1b], H2 as [H2a H2b].
  split; apply (Qmult_le_r _ _ f Hf); nra.
Qed.

(** Dividing a number by its quotient by [w] gives [w] back to within a
    relative 2^-20, when both quotients are normal numbers. *)
Lemma div_div_recovers (D w : Z) :
  F32.is_number D = true -> F32.is_number w = true ->
  F32.is_normal (F32.div D w) = true ->
  F32.is_normal (F32.div D (F32.div D w)) = true ->
  (Qabs (F32.to_Q (F32.div D (F32.div D w)) - F32.to_Q w)
   <= (1 # 1048576) * Qabs (F32.to_Q w))%Q.
Proof.
  intros HD Hw Hn1 Hn2.
  destruct (div_normal D w HD Hw Hn1) as (Hnum1 & Hs1 & Hacc1).
  destruct (div_normal D (F32.div D w) HD Hnum1 Hn2) as (Hnum2 & Hs2 & Hacc2).
  pose proof (mag_pos D HD) as Hx.
  pose proof (mag_pos w Hw) as Hy.
  pose proof (mag_pos _ Hnum1) as Hf.
  pose proof (mag_pos _ Hnum2) as Hg.
  assert (Hs : F32.sign (F32.div D (F32.div D w)) = F32.sign w).
  { rewrite Hs2, Hs1. destruct (F32.sign D), (F32.sign w); reflexivity. }
  rewrite (to_Q_sign_mag (F32.div D (F32.div D w))), (to_Q_sign_mag w), Hs.
  set (g := F32.mag (F32.div D (F32.div D w))) in *.
  set (y := F32.mag w) in *.
  assert (E : forall s : bool,
            (Qabs ((if s then -1 else 1) * g - (if s then -1 else 1) * y)
             == Qabs (g - y) /\
             Qabs ((if s then -1 else 1) * y) == y)%Q).
  { intros []; split.
    - rewrite <- Qabs_opp. apply Qabs_wd. ring.
    - assert (E3 : (-1 * y == - y)%Q) by ring.
      rewrite E3, Qabs_opp. apply Qabs_pos, Qlt_le_weak, Hy.
    - apply Qabs_wd. ring.
    - assert (E3 : (1 * y == y)%Q) by ring.
      rewrite E3. apply Qabs_pos, Qlt_le_weak, Hy. }
  destruct (E (F32.sign w)) as [E1 E2]. rewrite E1, E2.
  exact (recovered_bound _ _ _ _ Hx Hy Hf Hg Hacc1 Hacc2).
Qed.

(** ** The per-sample weight *)

Section Weight.

Import Sketch.

Lemma wrap32_0 : wrap32 0 = 0.
Proof. reflexivity. Qed.

Lemma trueWeight_at_zero_offset (zo cf : Z) :
  trueWeight zo zo cf
  = F32.to_bits (SFdiv F32.prec F32.emax (S754_zero false) (F32.of_bits cf)).
Proof.
  unfold trueWeight. rewrite Z.sub_diag, wrap32_0. reflexivity.
Qed.

Lemma wrap32_small (z : Z) : - 2 ^ 31 <= z < 2 ^ 31 -> wrap32 z = z.
Proof.
  unfold wrap32. change (2 ^ 31) with 2147483648.
  change (2 ^ 32) with 4294967296. intros H.
  Z.div_mod_to_equations. lia.
Qed.

Lemma to_Q_of_int (d : Z) :
  d <> 0 -> Z.abs d < 2 ^ 24 ->
  F32.is_number (F32.of_int d) = true /\
  (F32.to_Q (F32.of_int d) == inject_Z d)%Q.
Proof.
  intros Hd Habs.
  destruct (of_int_exact d Hd Habs) as (Hn & Hs & Hm).
  split; [exact Hn|].
  rewrite to_Q_sign_mag, Hs, Hm.
  destruct (Z.ltb_spec d 0) as [Hneg|Hpos].
  - rewrite Z.abs_neq by lia. rewrite inject_Z_opp. ring.
  - rewrite Z.abs_eq by lia. ring.
Qed.

(** C4 (as amended): the weight of a sample is the [float] quotient of
    the [int] difference, converted to [float], by the scale factor.  For
    every scale factor that is neither zero nor a NaN, the sample equal to
    the zero offset weighs zero (plus or minus 0.0, which compare equal to
    0); and a sample less than 2^24 away from the zero offset, when its
    weight is a normal number, weighs (raw - zeroOffset) / scaleFactor to
    within a relative 2^-22. *)
Theorem trueWeight_is_rounded_quotient (raw zo cf : Z) :
  F32.is_nan cf = false ->
  F32.eqb cf F32.zero = false ->
  (let w0 := trueWeight zo zo cf in
   F32.eqb w0 F32.zero = true /\
   (w0 = F32.zero \/ w0 = F32.sign_bit true) /\
   F32.to_Q w0 = 0%Q) /\
  (raw <> zo -> Z.abs (raw - zo) < 2 ^ 24 ->
   F32.is_number cf = true ->
   F32.is_normal (trueWeight raw zo cf) = true ->
   (Qabs (F32.to_Q (trueWeight raw zo cf)
          - inject_Z (raw - zo) / F32.to_Q cf)
    <= (1 # 4194304) * Qabs (inject_Z (raw - zo) / F32.to_Q cf))%Q).
Proof.
  intros Hnan Hnz. split.
  - cbv zeta. rewrite trueWeight_at_zero_offset.
    unfold F32.is_nan, F32.eqb in *.
    destruct (F32.of_bits cf) as [s|s| |s m e]; try discriminate;
      destruct s; vm_compute; auto.
  - intros Hne Habs Hcf Hn. unfold trueWeight in *.
    assert (Hw : wrap32 (raw - zo) = raw - zo).
    { apply wrap32_small. revert Habs.
      change (2 ^ 24) with 16777216. change (2 ^ 31) with 2147483648. lia. }
    rewrite Hw in *.
    destruct (to_Q_of_int (raw - zo) ltac:(lia) Habs) as [Hnum HQ].
    rewrite <- HQ.
    apply div_accurate; assumption.
Qed.

(** A scale factor that is a NaN gives every sample, also the one at
    the zero offset, a NaN weight. *)
Lemma trueWeight_nan (raw zo cf : Z) :
  F32.is_nan cf = true ->
  trueWeight raw zo cf = F32.to_bits S754_nan.
Proof.
  unfold trueWeight, F32.div, F32.is_nan. intros H.
  destruct (F32.of_bits cf); try discriminate.
  destruct (F32.of_bits _); reflexivity.
Qed.

End Weight.

Lemma trueWeight_is_rounded_quotient_witness :
  (Qabs (F32.to_Q (Sketch.trueWeight 57683 25776 1150199269)
         - inject_Z (57683 - 25776) / F32.to_Q 1150199269)
   <= (1 # 4194304) * Qabs (inject_Z (57683 - 25776) / F32.to_Q 1150199269))%Q.
Proof.
  refine (proj2 (trueWeight_is_rounded_quotient 57683 25776 1150199269
                   eq_refl eq_refl) _ _ eq_refl eq_refl).
  - discriminate.
  - reflexivity.
Defined.

(** The scale factor a device holds after loading from an erased EEPROM is
  not zero, and the sample equal to the zero offset does not weigh zero. *)
Lemma trueWeight_not_zero_for_nan :
  let cf := Sketch.getCalibrationFactor (Sketch.readSystemSettings erased) in
  let zo := Sketch.getZeroOffset (Sketch.readSystemSettings erased) in
  F32.eqb cf F32.zero = false /\
  F32.eqb (Sketch.trueWeight zo zo cf) F32.zero = false.
Proof.
  vm_compute. split; reflexivity.
Qed.

(** ** The guided calibration *)

Section Calibration.

Import Sketch.

Lemma getReadings_spec (n : nat) (d : Device) :
  getReadings n d
  = (map (fun i => wrap32 (adc d i)) (seq (adcPos d) n),
     set_adcPos (adcPos d + n) d).
Proof.
  revert d. induction n as [|n IH]; intros d.
  - cbn [getReadings seq map]. rewrite Nat.add_0_r.
    destruct d; reflexivity.
  - cbn [getReadings getReading seq map]. rewrite IH.
    cbn [adc adcPos set_adcPos]. rewrite Nat.add_succ_r. reflexivity.
Qed.

Lemma getAverage_spec (n : nat) (d : Device) :
  getAverage n d = (averageAt d (adcPos d) n, set_adcPos (adcPos d + n) d).
Proof. unfold getAverage. rewrite getReadings_spec. reflexivity. Qed.

Variable defaultSamples : nat.

(** What [calibrateScale] leaves behind, for any number typed. *)
Lemma calibrateScale_result (d : Device) :
  let tare := averageAt d (adcPos d) 64 in
  let loaded := averageAt d (adcPos d + 64) 64 in
  let w := fst (parseFloat d) in
  let factor := F32.div (F32.of_int (wrap32 (loaded - tare))) w in
  let d' := calibrateScale defaultSamples d in
  myScale d' = {| zeroOffset := tare; calibrationFactor := factor |} /\
  EEPROM d' = EEPROM_put LOCATION_ZERO_OFFSET tare
                (EEPROM_put LOCATION_CALIBRATION_FACTOR factor (EEPROM d)) /\
  console d' = console (snd (parseFloat d)).
Proof.
  intros tare loaded w factor d'.
  unfold d', calibrateScale, calculateZeroOffset, calculateCalibrationFactor,
    getWeight, recordSystemSettings.
  rewrite getAverage_spec. fold tare.
  assert (Hp : parseFloat (setZeroOffset tare (set_adcPos (adcPos d + 64) d))
               = (w, set_console (console (snd (parseFloat d)))
                       (setZeroOffset tare (set_adcPos (adcPos d + 64) d)))).
  { unfold w, parseFloat. cbn [console setZeroOffset set_myScale set_adcPos].
    destruct (console d); [|reflexivity].
    cbn [fst snd console]. destruct d; reflexivity. }
  rewrite Hp. rewrite getAverage_spec.
  cbn [adc adcPos set_console setZeroOffset set_myScale set_adcPos
       getZeroOffset myScale zeroOffset].
  change (averageAt _ (adcPos d + 64) 64) with loaded.
  fold factor.
  rewrite getAverage_spec.
  cbn [EEPROM set_EEPROM setCalibrationFactor set_myScale set_adcPos
       set_console getCalibrationFactor getZeroOffset myScale zeroOffset
       calibrationFactor console].
  repeat split.
Qed.

End Calibration.

(** Weighing the calibration average with the scale factor it gave
    returns the known weight to within a relative 2^-20. *)
Lemma weight_recovered (loaded tare w : Z) :
  loaded <> tare -> Z.abs (loaded - tare) < 2 ^ 24 ->
  F32.is_number w = true ->
  let factor := F32.div (F32.of_int (wrap32 (loaded - tare))) w in
  F32.is_normal factor = true ->
  F32.is_normal (Sketch.trueWeight loaded tare factor) = true ->
  (Qabs (F32.to_Q (Sketch.trueWeight loaded tare factor) - F32.to_Q w)
   <= (1 # 1048576) * Qabs (F32.to_Q w))%Q.
Proof.
  intros Hne Habs Hw factor Hn1 Hn2. unfold factor, Sketch.trueWeight in *.
  destruct (to_Q_of_int (loaded - tare) ltac:(lia) Habs) as [Hnum _].
  assert (Hwrap : wrap32 (loaded - tare) = loaded - tare).
  { apply wrap32_small. revert Habs.
    change (2 ^ 24) with 16777216. change (2 ^ 31) with 2147483648. lia. }
  rewrite Hwrap in *.
  apply div_div_recovers; assumption.
Qed.

Section CalibrationClaims.

Import Sketch.
Variable defaultSamples : nat.

(** C3 (as amended): [calibrateScale] checks nothing about the number
    typed; for a non-positive one, as for any other, it runs to its end,
    sets the scale factor to (average - zero offset) / number and writes
    both parameters to the EEPROM. *)
Theorem calibrateScale_accepts_nonpositive_weight (d : Device) :
  let w := fst (parseFloat d) in
  F32.leb w F32.zero = true ->
  let tare := averageAt d (adcPos d) 64 in
  let loaded := averageAt d (adcPos d + 64) 64 in
  let d' := calibrateScale defaultSamples d in
  getZeroOffset d' = tare /\
  getCalibrationFactor d'
    = F32.div (F32.of_int (wrap32 (loaded - tare))) w /\
  EEPROM d'
    = EEPROM_put LOCATION_ZERO_OFFSET (getZeroOffset d')
        (EEPROM_put LOCATION_CALIBRATION_FACTOR (getCalibrationFactor d')
           (EEPROM d)).
Proof.
  intros w _ tare loaded d'.
  destruct (calibrateScale_result defaultSamples d) as (Hs & He & _).
  fold tare loaded w d' in Hs, He.
  unfold getZeroOffset, getCalibrationFactor. rewrite Hs.
  cbn [zeroOffset calibrationFactor]. repeat split. exact He.
Qed.

(** C5: the guided calibration sets the zero offset to the tare average
    and the scale factor to (calibration average - zero offset) / known
    weight, so that the calibration average then weighs the known weight
    to within a relative 2^-20 (when the two averages differ by less than
    2^24 and the scale factor and that weight are normal numbers).  On the
    scale of the header comment (tare average 25776, 15.2 on the scale,
    calibration average 43122) the scale factor is 1141.2 to within 0.02,
    the calibration average weighs 15.2 to within a millionth and a raw
    sample of 57683 weighs 27.96 to within 0.001. *)
Theorem calibrateScale_scale_factor :
  (forall d : Device,
     let tare := averageAt d (adcPos d) 64 in
     let loaded := averageAt d (adcPos d + 64) 64 in
     let w := fst (parseFloat d) in
     let d' := calibrateScale defaultSamples d in
     let weighed :=
       trueWeight loaded (getZeroOffset d') (getCalibrationFactor d') in
     getZeroOffset d' = tare /\
     getCalibrationFactor d'
       = F32.div (F32.of_int (wrap32 (loaded - tare))) w /\
     (loaded <> tare -> Z.abs (loaded - tare) < 2 ^ 24 ->
      F32.is_number w = true ->
      F32.is_normal (getCalibrationFactor d') = true ->
      F32.is_normal weighed = true ->
      (Qabs (F32.to_Q weighed - F32.to_Q w)
       <= (1 # 1048576) * Qabs (F32.to_Q w))%Q)) /\
  (let d' := calibrateScale defaultSamples teaCup in
   let factor := getCalibrationFactor d' in
   averageAt teaCup 0 64 = 25776 /\
   averageAt teaCup 64 64 = 43122 /\
   (Qabs (F32.to_Q (fst (parseFloat teaCup)) - (152 # 10)) <= 1 # 1000000)%Q /\
   getZeroOffset d' = 25776 /\
   F32.is_finite factor = true /\
   (Qabs (F32.to_Q factor - (11412 # 10)) <= 2 # 100)%Q /\
   (Qabs (F32.to_Q (trueWeight 43122 25776 factor) - (152 # 10))
      <= 1 # 1000000)%Q /\
   (Qabs (F32.to_Q (trueWeight 57683 25776 factor) - (2796 # 100))
      <= 1 # 1000)%Q).
Proof.
  split.
  - intros d tare loaded w d' weighed.
    destruct (calibrateScale_result defaultSamples d) as (Hs & _ & _).
    fold tare loaded w d' in Hs.
    assert (Hz : getZeroOffset d' = tare)
      by (unfold getZeroOffset; rewrite Hs; reflexivity).
    assert (Hc : getCalibrationFactor d'
                 = F32.div (F32.of_int (wrap32 (loaded - tare))) w)
      by (unfold getCalibrationFactor; rewrite Hs; reflexivity).
    split; [exact Hz|]. split; [exact Hc|].
    unfold weighed. rewrite Hz, Hc.
    intros Hne Habs Hw Hn1 Hn2.
    exact (weight_recovered loaded tare w Hne Habs Hw Hn1 Hn2).
  - destruct (calibrateScale_result defaultSamples teaCup) as (Hs & _ & _).
    cbv zeta. unfold getZeroOffset, getCalibrationFactor. rewrite Hs.
    cbn [zeroOffset calibrationFactor].
    repeat split; try (vm_compute; reflexivity);
      apply Qle_bool_iff; vm_compute; reflexivity.
Qed.

End CalibrationClaims.

Lemma calibrateScale_scale_factor_witness :
  let d := teaCup in
  let tare := averageAt d (Sketch.adcPos d) 64 in
  let loaded := averageAt d (Sketch.adcPos d + 64) 64 in
  let w := fst (Sketch.parseFloat d) in
  let d' := Sketch.calibrateScale 8 d in
  let weighed :=
    Sketch.trueWeight loaded (Sketch.getZeroOffset d')
      (Sketch.getCalibrationFactor d') in
  loaded <> tare /\
  Z.abs (loaded - tare) < 2 ^ 24 /\
  (Qabs (F32.to_Q weighed - F32.to_Q w)
   <= (1 # 1048576) * Qabs (F32.to_Q w))%Q.
Proof.
  cbv zeta.
  split; [vm_compute; discriminate|].
  split; [vm_compute; reflexivity|].
  apply (proj2 (proj2 (proj1 (calibrateScale_scale_factor 8) teaCup)));
    vm_compute; first [reflexivity | discriminate].
Defined.

Lemma calibrateScale_accepts_nonpositive_weight_witness :
  F32.leb (fst (Sketch.parseFloat negativeWeight)) F32.zero = true /\
  Sketch.getCalibrationFactor (Sketch.calibrateScale 8 negativeWeight)
  = F32.of_int (-17346).
Proof.
  split; [reflexivity|].
  refine (eq_trans
            (proj1 (proj2 (calibrateScale_accepts_nonpositive_weight
                             8 negativeWeight eq_refl))) _).
  vm_compute. reflexivity.
Defined.

(** With -1 typed as the known weight the calibration completes: the zero
  offset, the scale factor and the EEPROM all change. *)
Lemma calibrateScale_negative_weight_changes_parameters :
  let d := negativeWeight in
  let d' := Sketch.calibrateScale 8 d in
  F32.leb (fst (Sketch.parseFloat d)) F32.zero = true /\
  (F32.to_Q (fst (Sketch.parseFloat d)) == -1 # 1)%Q /\
  Sketch.getZeroOffset d = 25000 /\
  Sketch.getZeroOffset d' = 25776 /\
  (F32.to_Q (Sketch.getCalibrationFactor d) == 9348581 # 8192)%Q /\
  (F32.to_Q (Sketch.getCalibrationFactor d') == -17346 # 1)%Q /\
  Sketch.myScale d' <> Sketch.myScale d /\
  Sketch.EEPROM d' <> Sketch.EEPROM d.
Proof.
  repeat split; try (vm_compute; reflexivity); vm_compute; discriminate.
Qed.

(** * The dispatch loop tick by tick, and further properties *)

Section Frames.

Import Sketch.
Variable defaultSamples : nat.

(** What [calibrateScale] leaves alone, and what it uses up. *)
Lemma calibrateScale_frame (d : Device) :
  let d' := calibrateScale defaultSamples d in
  deviceConnected d' = deviceConnected d /\
  oldDeviceConnected d' = oldDeviceConnected d /\
  command d' = command d /\
  settingsDetected d' = settingsDetected d /\
  advertisingStarts d' = advertisingStarts d /\
  adcPos d' = (adcPos d + 64 + 64 + defaultSamples)%nat /\
  console d' = tail (console d) /\
  length (EEPROM d') = length (EEPROM d).
Proof.
  unfold calibrateScale, calculateZeroOffset, calculateCalibrationFactor,
    getWeight, recordSystemSettings, parseFloat.
  rewrite getAverage_spec.
  cbn [console setZeroOffset set_myScale set_adcPos].
  destruct (console d) as [|w rest] eqn:Hc.
  - rewrite getAverage_spec.
    cbn [adc adcPos set_console setZeroOffset setCalibrationFactor
         set_myScale set_adcPos].
    rewrite getAverage_spec.
    cbn [EEPROM set_EEPROM deviceConnected oldDeviceConnected command
         settingsDetected advertisingStarts adcPos console set_adcPos
         set_myScale setCalibrationFactor setZeroOffset adc tail].
    rewrite !length_EEPROM_put, ?Hc. repeat split; lia.
  - rewrite getAverage_spec.
    cbn [adc adcPos set_console setZeroOffset setCalibrationFactor
         set_myScale set_adcPos].
    rewrite getAverage_spec.
    cbn [EEPROM set_EEPROM deviceConnected oldDeviceConnected command
         settingsDetected advertisingStarts adcPos console set_adcPos
         set_myScale setCalibrationFactor setZeroOffset adc tail].
    rewrite !length_EEPROM_put, ?Hc. repeat split; lia.
Qed.

Lemma timedMeasure_device (d : Device) :
  snd (timedMeasure d) = set_adcPos (adcPos d + numMeasurements) d.
Proof.
  unfold timedMeasure. generalize numMeasurements. intros n.
  rewrite getReadings_spec. reflexivity.
Qed.

(** X1.  A timed measurement takes exactly 1000 samples off the stream and
    changes nothing else: not the calibration, not the EEPROM, not the
    flags, not the pending command. *)
Theorem timedMeasure_frame (d : Device) :
  let d' := snd (timedMeasure d) in
  adcPos d' = (adcPos d + 1000)%nat /\
  myScale d' = myScale d /\ EEPROM d' = EEPROM d /\
  settingsDetected d' = settingsDetected d /\
  deviceConnected d' = deviceConnected d /\
  oldDeviceConnected d' = oldDeviceConnected d /\
  command d' = command d /\
  advertisingStarts d' = advertisingStarts d.
Proof.
  cbv zeta. rewrite timedMeasure_device. repeat split.
Qed.

Lemma calculateZeroOffset_frame (n : nat) (d : Device) :
  calculateZeroOffset n d
  = setZeroOffset (averageAt d (adcPos d) n) (set_adcPos (adcPos d + n) d).
Proof. unfold calculateZeroOffset. rewrite getAverage_spec. reflexivity. Qed.

(** The command step of [loop] leaves the connection flags, the command
    and the advertising count alone. *)
Lemma loop_command_step_frame (d : Device) :
  let d1 :=
    if deviceConnected d then
      match switch (command d) with
      | Some NOTHING => d
      | Some TARE => calculateZeroOffset defaultSamples d
      | Some CALIBRATE => calibrateScale defaultSamples d
      | Some TIMED_MEASURE => snd (timedMeasure d)
      | None => d
      end
    else d in
  deviceConnected d1 = deviceConnected d /\
  oldDeviceConnected d1 = oldDeviceConnected d /\
  command d1 = command d /\
  advertisingStarts d1 = advertisingStarts d.
Proof.
  cbv zeta. destruct (deviceConnected d) eqn:Hc; [|rewrite Hc; auto].
  destruct (switch (command d)) as [[]|].
  - rewrite Hc. auto.
  - rewrite calculateZeroOffset_frame. cbn. rewrite Hc. auto.
  - destruct (calibrateScale_frame d) as (H1 & H2 & H3 & _ & H5 & _).
    rewrite H1, H2, H3, H5, Hc. auto.
  - rewrite timedMeasure_device. cbn. rewrite Hc. auto.
  - rewrite Hc. auto.
Qed.

(** A connected tick is the operation the [switch] selects, followed by
    the note of a new connection. *)
Lemma loop_connected (d : Device) :
  deviceConnected d = true ->
  loop defaultSamples d
  = let d1 :=
      match switch (command d) with
      | Some NOTHING => d
      | Some TARE => calculateZeroOffset defaultSamples d
      | Some CALIBRATE => calibrateScale defaultSamples d
      | Some TIMED_MEASURE => snd (timedMeasure d)
      | None => d
      end in
    if oldDeviceConnected d then d1 else set_oldDeviceConnected true d1.
Proof.
  intros Hc. pose proof (loop_command_step_frame d) as H.
  cbv zeta in H |- *. unfold loop. rewrite Hc in H |- *.
  set (d1 := match switch (command d) with Some _ => _ | None => _ end) in *.
  destruct H as (H1 & H2 & _). clearbody d1.
  rewrite H1, H2. cbn [negb andb]. rewrite H1, H2.
  destruct (oldDeviceConnected d); reflexivity.
Qed.

(** One poll tick: the connection flag and the pending command are left
    as they are, the remembered flag catches up with the connection flag,
    and advertising is restarted exactly when the tick finds the device
    disconnected while the remembered flag still says connected. *)
Lemma loop_flags (d : Device) :
  let d' := loop defaultSamples d in
  deviceConnected d' = deviceConnected d /\
  oldDeviceConnected d' = deviceConnected d /\
  command d' = command d /\
  advertisingStarts d'
  = (advertisingStarts d
     + if negb (deviceConnected d) && oldDeviceConnected d then 1 else 0)%nat.
Proof.
  pose proof (loop_command_step_frame d) as H. cbv zeta in H.
  unfold loop.
  set (d1 := if deviceConnected d then _ else d) in *.
  destruct H as (H1 & H2 & H3 & H4). clearbody d1.
  rewrite <- H1, <- H2, <- H3, <- H4. clear H1 H2 H3 H4.
  destruct (deviceConnected d1) eqn:Hc, (oldDeviceConnected d1) eqn:Ho;
    cbn; rewrite ?Hc, ?Ho; cbn; rewrite ?Hc; repeat split;
    first [assumption | lia].
Qed.

(** Over any number of poll ticks with no event of the wireless stack
    in between, the connection flag and the pending command stay as they
    are (no tick clears the command), the remembered flag equals the
    connection flag from the first tick on, and advertising is restarted
    at most once, at the first tick, exactly when that tick finds the
    device disconnected while the remembered flag still says connected. *)
Lemma loop_iter_flags (n : nat) (d : Device) :
  let d' := Nat.iter n (loop defaultSamples) d in
  deviceConnected d' = deviceConnected d /\
  command d' = command d /\
  oldDeviceConnected d'
  = (if (0 <? n)%nat then deviceConnected d else oldDeviceConnected d) /\
  advertisingStarts d'
  = (advertisingStarts d
     + if (0 <? n)%nat && negb (deviceConnected d) && oldDeviceConnected d
       then 1 else 0)%nat.
Proof.
  induction n as [|n IH].
  - cbn. repeat split; lia.
  - cbv zeta in *. rewrite Nat.iter_succ.
    destruct IH as (IH1 & IH2 & IH3 & IH4).
    destruct (loop_flags (Nat.iter n (loop defaultSamples) d))
      as (H1 & H2 & H3 & H4).
    rewrite H4, H1, H2, H3, IH1, IH2, IH3, IH4.
    change (0 <? S n)%nat with true. cbv iota.
    repeat split.
    destruct n as [|n].
    + cbn. destruct (deviceConnected d), (oldDeviceConnected d); cbn; lia.
    + change (0 <? S n)%nat with true.
      destruct (deviceConnected d), (oldDeviceConnected d); cbn; lia.
Qed.

(** The bookkeeping at the end of [loop] touches nothing of the scale,
    the EEPROM, the sample stream or the console. *)
Lemma loop_bookkeeping_frame (d : Device) :
  let d1 :=
    if deviceConnected d then
      match switch (command d) with
      | Some NOTHING => d
      | Some TARE => calculateZeroOffset defaultSamples d
      | Some CALIBRATE => calibrateScale defaultSamples d
      | Some TIMED_MEASURE => snd (timedMeasure d)
      | None => d
      end
    else d in
  let d' := loop defaultSamples d in
  myScale d' = myScale d1 /\ EEPROM d' = EEPROM d1 /\
  adcPos d' = adcPos d1 /\ console d' = console d1 /\
  settingsDetected d' = settingsDetected d1 /\ adc d' = adc d1.
Proof.
  cbv zeta. unfold loop.
  set (d1 := if deviceConnected d then _ else d). clearbody d1.
  destruct (deviceConnected d1) eqn:Hc, (oldDeviceConnected d1) eqn:Ho;
    cbn; rewrite ?Hc, ?Ho; cbn; rewrite ?Hc; cbn; repeat split.
Qed.

(** X2.  A connected tick with a command byte other than 1, 2 and 3 (0, the
    decoder's 4 for "timed_measure", any stray byte) runs no scale
    operation. *)
Theorem loop_other_command_no_effect (d : Device) :
  command d <> 1 -> command d <> 2 -> command d <> 3 ->
  let d' := loop defaultSamples d in
  myScale d' = myScale d /\ EEPROM d' = EEPROM d /\
  adcPos d' = adcPos d /\ console d' = console d /\
  settingsDetected d' = settingsDetected d.
Proof.
  intros H1 H2 H3.
  pose proof (loop_bookkeeping_frame d) as H. cbv zeta in H |- *.
  assert (Hs : switch (command d) = Some NOTHING \/ switch (command d) = None).
  { unfold switch, underlying.
    destruct (Z.eqb_spec (command d) 0); [left; reflexivity|].
    destruct (Z.eqb_spec (command d) 1); [lia|].
    destruct (Z.eqb_spec (command d) 2); [lia|].
    destruct (Z.eqb_spec (command d) 3); [lia|]. right. reflexivity. }
  destruct H as (Ha & Hb & Hc & Hd & He & _).
  destruct Hs as [Hs|Hs]; rewrite Hs in Ha, Hb, Hc, Hd, He;
    destruct (deviceConnected d); auto.
Qed.

(** X3.  The EEPROM is written on a tick only by the guided calibration: a
    tick that is disconnected, or whose command is not 2, leaves every
    cell as it was. *)
Theorem loop_writes_EEPROM_only_on_calibrate (d : Device) :
  deviceConnected d = false \/ command d <> 2 ->
  EEPROM (loop defaultSamples d) = EEPROM d.
Proof.
  intros Hc.
  destruct (loop_bookkeeping_frame d) as (_ & He & _). cbv zeta in He.
  rewrite He. clear He.
  destruct (deviceConnected d); [|reflexivity].
  destruct Hc as [Hc|Hc]; [discriminate|].
  unfold switch, underlying.
  destruct (Z.eqb_spec (command d) 0); [reflexivity|].
  destruct (Z.eqb_spec (command d) 1).
  { rewrite calculateZeroOffset_frame. reflexivity. }
  destruct (Z.eqb_spec (command d) 2); [lia|].
  destruct (Z.eqb_spec (command d) 3); [|reflexivity].
  rewrite timedMeasure_device. reflexivity.
Qed.

(** X4.  A connected tick with the Tare byte pending sets the zero offset to
    the average of the next samples and nothing else of the scale; the
    command stays pending, so the next tick tares again, on the samples
    that follow. *)
Theorem loop_tare (d : Device) :
  deviceConnected d = true -> command d = 1 ->
  let d1 := loop defaultSamples d in
  let d2 := loop defaultSamples d1 in
  getZeroOffset d1 = averageAt d (adcPos d) defaultSamples /\
  getCalibrationFactor d1 = getCalibrationFactor d /\
  adcPos d1 = (adcPos d + defaultSamples)%nat /\
  command d1 = 1 /\
  getZeroOffset d2
  = averageAt d (adcPos d + defaultSamples) defaultSamples /\
  adcPos d2 = (adcPos d + defaultSamples + defaultSamples)%nat.
Proof.
  assert (Hstep : forall x : Device,
            deviceConnected x = true -> command x = 1 ->
            myScale (loop defaultSamples x)
            = {| zeroOffset := averageAt x (adcPos x) defaultSamples;
                 calibrationFactor := getCalibrationFactor x |} /\
            adcPos (loop defaultSamples x) = (adcPos x + defaultSamples)%nat /\
            adc (loop defaultSamples x) = adc x).
  { intros x Hc Hcmd.
    destruct (loop_bookkeeping_frame x) as (Hm & _ & Hp & _ & _ & Ha).
    cbv zeta in Hm, Hp, Ha. rewrite Hc, Hcmd in Hm, Hp, Ha.
    change (switch 1) with (Some TARE) in Hm, Hp, Ha.
    rewrite calculateZeroOffset_frame in Hm, Hp, Ha.
    split; [exact Hm|]. split; [exact Hp|exact Ha]. }
  intros Hc Hcmd d1 d2.
  destruct (loop_flags d) as (Hc1 & _ & Hcmd1 & _).
  fold d1 in Hc1, Hcmd1.
  destruct (Hstep d Hc Hcmd) as (Hm1 & Hp1 & Ha1). fold d1 in Hm1, Hp1, Ha1.
  destruct (Hstep d1 ltac:(congruence) ltac:(congruence)) as (Hm2 & Hp2 & _).
  fold d2 in Hm2, Hp2.
  unfold getZeroOffset, getCalibrationFactor in *.
  rewrite Hm1, Hm2, Hp2, Hp1. cbn [zeroOffset calibrationFactor].
  repeat split; try congruence.
  unfold averageAt. rewrite Ha1. reflexivity.
Qed.

(** X5.  A connection the ticks have seen is followed, once it ends, by
    exactly one restart of advertising, however many ticks run while
    connected and after: none is started while connected, one at the first
    tick after the disconnection, and none after that. *)
Theorem loop_connection_cycle (n m : nat) (d : Device) :
  let d1 := Nat.iter (S n) (loop defaultSamples) (onConnect d) in
  let d2 := Nat.iter (S m) (loop defaultSamples) (onDisconnect d1) in
  advertisingStarts d1 = advertisingStarts d /\
  oldDeviceConnected d1 = true /\
  advertisingStarts d2 = S (advertisingStarts d) /\
  deviceConnected d2 = false /\ oldDeviceConnected d2 = false.
Proof.
  intros d1 d2.
  destruct (loop_iter_flags (S n) (onConnect d)) as (_ & _ & Ho1 & Ha1).
  destruct (loop_iter_flags (S m) (onDisconnect d1)) as (Hc2 & _ & Ho2 & Ha2).
  fold d1 in Ho1, Ha1. fold d2 in Hc2, Ho2, Ha2.
  change (0 <? S n)%nat with true in Ho1, Ha1.
  change (0 <? S m)%nat with true in Ho2, Ha2.
  change (deviceConnected (onConnect d)) with true in Ho1, Ha1.
  change (advertisingStarts (onConnect d)) with (advertisingStarts d) in Ha1.
  change (deviceConnected (onDisconnect d1)) with false in Hc2, Ho2, Ha2.
  change (oldDeviceConnected (onDisconnect d1))
    with (oldDeviceConnected d1) in Ha2.
  change (advertisingStarts (onDisconnect d1))
    with (advertisingStarts d1) in Ha2.
  cbv iota in Ho1, Ho2. rewrite Ho1 in Ha2.
  cbn [andb negb] in Ha1, Ha2. clearbody d2. clearbody d1.
  repeat split; try assumption; lia.
Qed.

(** X6.  A connection that begins and ends between two ticks goes unseen: the
    remembered flag never became true, so no tick restarts advertising
    after it. *)
Theorem loop_misses_short_connection (n : nat) (d : Device) :
  oldDeviceConnected d = false ->
  let d' := Nat.iter n (loop defaultSamples) (onDisconnect (onConnect d)) in
  advertisingStarts d' = advertisingStarts d /\
  deviceConnected d' = false /\ oldDeviceConnected d' = false.
Proof.
  intros Hold d'.
  destruct (loop_iter_flags n (onDisconnect (onConnect d)))
    as (Hc & _ & Ho & Ha).
  fold d' in Hc, Ho, Ha.
  change (deviceConnected (onDisconnect (onConnect d))) with false
    in Hc, Ho, Ha.
  change (oldDeviceConnected (onDisconnect (onConnect d)))
    with (oldDeviceConnected d) in Ho, Ha.
  change (advertisingStarts (onDisconnect (onConnect d)))
    with (advertisingStarts d) in Ha.
  rewrite Hold in Ho, Ha. rewrite andb_false_r in Ha.
  split; [lia|]. split; [exact Hc|].
  destruct (0 <? n)%nat; exact Ho.
Qed.

(** A connected tick with the Timed-measure byte pending takes one session
    of samples and leaves the calibration, the EEPROM and the command. *)
Lemma loop_timed_measure_step (x : Device) :
  deviceConnected x = true -> command x = 3 ->
  adcPos (loop defaultSamples x) = (adcPos x + numMeasurements)%nat /\
  myScale (loop defaultSamples x) = myScale x /\
  EEPROM (loop defaultSamples x) = EEPROM x /\
  command (loop defaultSamples x) = 3 /\
  deviceConnected (loop defaultSamples x) = true.
Proof.
  intros Hc Hcmd.
  destruct (loop_flags x) as (Hc' & _ & Hk & _).
  destruct (loop_bookkeeping_frame x) as (Hm & He & Hp & _).
  assert (Hs : switch 3 = Some TIMED_MEASURE) by reflexivity.
  cbv zeta in Hm, He, Hp. rewrite Hc, Hcmd, Hs in Hm, He, Hp.
  rewrite timedMeasure_device in Hm, He, Hp.
  repeat split; [exact Hp|exact Hm|exact He|congruence|congruence].
Qed.

(** X7.  No tick clears the command: once the Timed-measure byte is written
    to a connected scale, every tick runs a session of 1000 samples, and
    none of them changes the calibration or the EEPROM. *)
Theorem loop_timed_measure_repeats (n : nat) (b : Z) (d : Device) :
  deviceConnected d = true -> b mod 2 ^ 8 = 3 ->
  let d' := Nat.iter n (loop defaultSamples) (onWrite_control b d) in
  adcPos d' = (adcPos d + n * numMeasurements)%nat /\
  myScale d' = myScale d /\ EEPROM d' = EEPROM d /\ command d' = 3.
Proof.
  intros Hc Hb.
  assert (Hgen : forall x : Device,
            deviceConnected x = true -> command x = 3 ->
            adcPos (Nat.iter n (loop defaultSamples) x)
            = (adcPos x + n * numMeasurements)%nat /\
            myScale (Nat.iter n (loop defaultSamples) x) = myScale x /\
            EEPROM (Nat.iter n (loop defaultSamples) x) = EEPROM x /\
            command (Nat.iter n (loop defaultSamples) x) = 3 /\
            deviceConnected (Nat.iter n (loop defaultSamples) x) = true).
  { clear d Hc b Hb. intros x Hc Hcmd.
    induction n as [|n IH].
    - cbn [Nat.iter nat_rect]. repeat split; [|exact Hcmd|exact Hc].
      generalize numMeasurements. intros k. lia.
    - rewrite Nat.iter_succ.
      destruct IH as (IHp & IHm & IHe & IHk & IHc).
      set (y := Nat.iter n (loop defaultSamples) x) in *. clearbody y.
      destruct (loop_timed_measure_step y IHc IHk)
        as (Hp & Hm & He & Hk & Hc').
      repeat split; [|congruence|congruence|exact Hk|exact Hc'].
      rewrite Hp, IHp. generalize numMeasurements. intros k. lia. }
  destruct (Hgen (onWrite_control b d) Hc Hb) as (H1 & H2 & H3 & H4 & _).
  cbv zeta. repeat split; [exact H1|exact H2|exact H3|exact H4].
Qed.

End Frames.

Lemma loop_other_command_no_effect_witness :
  Sketch.command strayCommand <> 1 /\
  Sketch.command strayCommand <> 2 /\
  Sketch.command strayCommand <> 3 /\
  Sketch.adcPos (Sketch.loop 8 strayCommand) = Sketch.adcPos strayCommand.
Proof.
  assert (H1 : Sketch.command strayCommand <> 1) by (vm_compute; discriminate).
  assert (H2 : Sketch.command strayCommand <> 2) by (vm_compute; discriminate).
  assert (H3 : Sketch.command strayCommand <> 3) by (vm_compute; discriminate).
  repeat (split; [assumption|]).
  exact (proj1 (proj2 (proj2
           (loop_other_command_no_effect 8 strayCommand H1 H2 H3)))).
Defined.

Lemma loop_writes_EEPROM_only_on_calibrate_witness :
  Sketch.command allNegative <> 2 /\
  Sketch.EEPROM (Sketch.loop 8 allNegative) = Sketch.EEPROM allNegative.
Proof.
  assert (H : Sketch.command allNegative <> 2) by (vm_compute; discriminate).
  split; [exact H|].
  exact (loop_writes_EEPROM_only_on_calibrate 8 allNegative (or_intror H)).
Defined.

Lemma loop_tare_witness :
  Sketch.deviceConnected tareConnected = true /\
  Sketch.command tareConnected = 1 /\
  Sketch.getZeroOffset (Sketch.loop 8 tareConnected) = 25776 /\
  Sketch.getZeroOffset (Sketch.loop 8 (Sketch.loop 8 tareConnected)) = 25780.
Proof.
  split; [reflexivity|]. split; [reflexivity|].
  pose proof (loop_tare 8 tareConnected eq_refl eq_refl) as H.
  cbv zeta in H. destruct H as (H1 & _ & _ & _ & H2 & _).
  split.
  - refine (eq_trans H1 _). vm_compute. reflexivity.
  - refine (eq_trans H2 _). vm_compute. reflexivity.
Defined.

Lemma loop_misses_short_connection_witness :
  Sketch.oldDeviceConnected erased = false /\
  Sketch.advertisingStarts
    (Nat.iter 3 (Sketch.loop 8)
       (Sketch.onDisconnect (Sketch.onConnect erased)))
  = Sketch.advertisingStarts erased.
Proof.
  split; [reflexivity|].
  exact (proj1 (loop_misses_short_connection 8 3 erased eq_refl)).
Defined.

Lemma loop_timed_measure_repeats_witness :
  Sketch.deviceConnected calibrated = true /\
  3 mod 2 ^ 8 = 3 /\
  Sketch.command
    (Nat.iter 2 (Sketch.loop 8) (Sketch.onWrite_control 3 calibrated)) = 3.
Proof.
  split; [reflexivity|]. split; [reflexivity|].
  exact (proj2 (proj2 (proj2
           (loop_timed_measure_repeats 8 2 3 calibrated eq_refl eq_refl)))).
Defined.

(** ** The two command vocabularies *)

(** C9: the decoder numbers ACKNOWLEDGE 1, TARE 2, CALIBRATE 3 and
    TIMED_MEASURE 4; each of the last three is one more than the byte the
    dispatch loop reads as that command (1, 2, 3).  So on a connected
    scale whose command byte is the value decoded from "tare", a tick of
    the loop runs the guided calibration; with the value decoded from
    "calibrate" it runs a timed measurement, with the one from
    "acknowledge" it tares, and with the one from "timed_measure" it runs
    nothing. *)
Theorem vocabularies_off_by_one (defaultSamples : nat) :
  CommandConverter.underlying CommandConverter.ACKNOWLEDGE = 1 /\
  CommandConverter.underlying CommandConverter.TARE
    = Sketch.underlying Sketch.TARE + 1 /\
  CommandConverter.underlying CommandConverter.CALIBRATE
    = Sketch.underlying Sketch.CALIBRATE + 1 /\
  CommandConverter.underlying CommandConverter.TIMED_MEASURE
    = Sketch.underlying Sketch.TIMED_MEASURE + 1 /\
  (Sketch.underlying Sketch.TARE = 1 /\
   Sketch.underlying Sketch.CALIBRATE = 2 /\
   Sketch.underlying Sketch.TIMED_MEASURE = 3) /\
  (CommandConverter.stringToCommand "tare"
     = CommandConverter.Returns CommandConverter.TARE /\
   CommandConverter.underlying CommandConverter.TARE = 2 /\
   dispatched CommandConverter.TARE = Some Sketch.CALIBRATE /\
   forall d : Sketch.Device,
     Sketch.deviceConnected d = true ->
     Sketch.command d = CommandConverter.underlying CommandConverter.TARE ->
     Sketch.loop defaultSamples d
     = if Sketch.oldDeviceConnected d
       then Sketch.calibrateScale defaultSamples d
       else Sketch.set_oldDeviceConnected true
              (Sketch.calibrateScale defaultSamples d)) /\
  (CommandConverter.stringToCommand "calibrate"
     = CommandConverter.Returns CommandConverter.CALIBRATE /\
   CommandConverter.underlying CommandConverter.CALIBRATE = 3 /\
   dispatched CommandConverter.CALIBRATE = Some Sketch.TIMED_MEASURE /\
   forall d : Sketch.Device,
     Sketch.deviceConnected d = true ->
     Sketch.command d
     = CommandConverter.underlying CommandConverter.CALIBRATE ->
     Sketch.loop defaultSamples d
     = if Sketch.oldDeviceConnected d
       then snd (Sketch.timedMeasure d)
       else Sketch.set_oldDeviceConnected true
              (snd (Sketch.timedMeasure d))) /\
  (CommandConverter.stringToCommand "acknowledge"
     = CommandConverter.Returns CommandConverter.ACKNOWLEDGE /\
   dispatched CommandConverter.ACKNOWLEDGE = Some Sketch.TARE /\
   forall d : Sketch.Device,
     Sketch.deviceConnected d = true ->
     Sketch.command d
     = CommandConverter.underlying CommandConverter.ACKNOWLEDGE ->
     Sketch.loop defaultSamples d
     = if Sketch.oldDeviceConnected d
       then Sketch.calculateZeroOffset defaultSamples d
       else Sketch.set_oldDeviceConnected true
              (Sketch.calculateZeroOffset defaultSamples d)) /\
  (CommandConverter.stringToCommand "timed_measure"
     = CommandConverter.Returns CommandConverter.TIMED_MEASURE /\
   CommandConverter.underlying CommandConverter.TIMED_MEASURE = 4 /\
   dispatched CommandConverter.TIMED_MEASURE = None /\
   forall d : Sketch.Device,
     Sketch.deviceConnected d = true ->
     Sketch.command d
     = CommandConverter.underlying CommandConverter.TIMED_MEASURE ->
     Sketch.loop defaultSamples d
     = if Sketch.oldDeviceConnected d
       then d else Sketch.set_oldDeviceConnected true d).
Proof.
  assert (Hrun : forall (d : Sketch.Device) (c : Z) (o : option Sketch.Commands),
            Sketch.deviceConnected d = true -> Sketch.command d = c ->
            Sketch.switch c = o ->
            Sketch.loop defaultSamples d
            = let d1 :=
                match o with
                | Some Sketch.NOTHING => d
                | Some Sketch.TARE =>
                    Sketch.calculateZeroOffset defaultSamples d
                | Some Sketch.CALIBRATE =>
                    Sketch.calibrateScale defaultSamples d
                | Some Sketch.TIMED_MEASURE => snd (Sketch.timedMeasure d)
                | None => d
                end in
              if Sketch.oldDeviceConnected d then d1
              else Sketch.set_oldDeviceConnected true d1).
  { intros d c o Hc Hcmd Ho.
    rewrite (loop_connected defaultSamples d Hc), Hcmd, Ho. reflexivity. }
  repeat match goal with |- _ /\ _ => split end; try reflexivity.
  - intros d Hc Hcmd.
    exact (Hrun d _ (Some Sketch.CALIBRATE) Hc Hcmd eq_refl).
  - intros d Hc Hcmd.
    exact (Hrun d _ (Some Sketch.TIMED_MEASURE) Hc Hcmd eq_refl).
  - intros d Hc Hcmd.
    exact (Hrun d _ (Some Sketch.TARE) Hc Hcmd eq_refl).
  - intros d Hc Hcmd.
    exact (Hrun d _ None Hc Hcmd eq_refl).
Qed.

Lemma vocabularies_off_by_one_witness :
  Sketch.deviceConnected teaCup = true /\
  Sketch.command teaCup
  = CommandConverter.underlying CommandConverter.TARE /\
  Sketch.getZeroOffset teaCup = 1000 /\
  Sketch.getZeroOffset (Sketch.loop 8 teaCup) = 25776.
Proof.
  assert (H1 : Sketch.deviceConnected teaCup = true) by reflexivity.
  assert (H2 : Sketch.command teaCup
               = CommandConverter.underlying CommandConverter.TARE)
    by reflexivity.
  pose proof (proj2 (proj2 (proj2 (proj1 (proj2 (proj2 (proj2 (proj2 (proj2
                (vocabularies_off_by_one 8)))))))))
                teaCup H1 H2) as H.
  split; [exact H1|]. split; [exact H2|]. split; [reflexivity|].
  rewrite H. vm_compute. reflexivity.
Defined.

Lemma SFltb_trans (x y z : spec_float) :
  SFltb x y = true -> SFltb y z = true -> SFltb x z = true.
Proof.
  unfold SFltb.
  destruct x as [[]|[]| |[] mx ex], y as [[]|[]| |[] my ey],
    z as [[]|[]| |[] mz ez]; cbn; try discriminate; try reflexivity.
  all: change (Pos.compare_cont Eq mx my) with (Pos.compare mx my).
  all: change (Pos.compare_cont Eq my mz) with (Pos.compare my mz).
  all: change (Pos.compare_cont Eq mx mz) with (Pos.compare mx mz).
  all: destruct (Z.compare_spec ex ey), (Z.compare_spec ey ez),
         (Z.compare_spec ex ez); try discriminate; try reflexivity; try lia.
  all: destruct (Pos.compare_spec mx my), (Pos.compare_spec my mz),
         (Pos.compare_spec mx mz); cbn; try discriminate; try reflexivity;
         try lia.
Qed.

Lemma SFltb_irrefl (x : spec_float) : SFltb x x = false.
Proof.
  destruct (SFltb x x) eqn:H; [|reflexivity].
  exfalso. exact (SFltb_asym x x H H).
Qed.

Section TimedMeasureMore.

Import Sketch.

(** The loop returns a value that is the one it started with or above it,
    and that no weight of the list compares above. *)
Lemma maxWeightLoop_upper_bound (ms : list Z) (zo cf : Z) :
  forall mw : Z,
  let r := maxWeightLoop ms zo cf mw in
  (r = mw \/ F32.gtb r mw = true) /\
  forall m, In m ms -> F32.gtb (trueWeight m zo cf) r = false.
Proof.
  induction ms as [|m ms IH]; intros mw; cbn [maxWeightLoop].
  - split; [left; reflexivity|]. intros m [].
  - set (t := trueWeight m zo cf).
    destruct (IH (if F32.gtb t mw then t else mw)) as [Hr Hall].
    cbv zeta in Hr, Hall.
    set (r := maxWeightLoop ms zo cf (if F32.gtb t mw then t else mw)) in *.
    unfold F32.gtb in *.
    destruct (SFltb (F32.of_bits mw) (F32.of_bits t)) eqn:Hgt.
    + split.
      * right. destruct Hr as [-> | Hr]; [exact Hgt|].
        exact (SFltb_trans _ _ _ Hgt Hr).
      * intros m' [<- | Hin]; [|exact (Hall m' Hin)]. fold t.
        destruct Hr as [-> | Hr]; [apply SFltb_irrefl|].
        destruct (SFltb (F32.of_bits r) (F32.of_bits t)) eqn:Hc;
          [|reflexivity].
        exfalso. exact (SFltb_asym _ _ Hc Hr).
    + split; [exact Hr|].
      intros m' [<- | Hin]; [|exact (Hall m' Hin)]. fold t.
      destruct Hr as [-> | Hr]; [exact Hgt|].
      destruct (SFltb (F32.of_bits r) (F32.of_bits t)) eqn:Hc; [|reflexivity].
      rewrite (SFltb_trans _ _ _ Hr Hc) in Hgt. discriminate.
Qed.

(** X8.  The maximum [timedMeasure] reports is an upper bound of the session:
    no sample's weight compares above it. *)
Theorem timedMeasure_max_upper_bound (d : Device) (m : Z) :
  In m (fst (getReadings numMeasurements d)) ->
  F32.gtb (trueWeight m (wrap32 (getZeroOffset d)) (getCalibrationFactor d))
          (fst (timedMeasure d)) = false.
Proof.
  rewrite timedMeasure_maxWeight. generalize numMeasurements. intros n Hin.
  exact (proj2 (maxWeightLoop_upper_bound _ _ _ F32.zero) m Hin).
Qed.

Lemma maxWeightLoop_nan (ms : list Z) (zo cf mw : Z) :
  F32.is_nan cf = true -> maxWeightLoop ms zo cf mw = mw.
Proof.
  intros Hnan. induction ms as [|m ms IH]; cbn [maxWeightLoop];
    [reflexivity|].
  rewrite (trueWeight_nan m zo cf Hnan).
  assert (Hg : F32.gtb (F32.to_bits S754_nan) mw = false).
  { unfold F32.gtb. change (F32.of_bits (F32.to_bits S754_nan)) with S754_nan.
    destruct (F32.of_bits mw); reflexivity. }
  rewrite Hg. exact IH.
Qed.

(** X9.  With a NaN scale factor, the one left by an erased EEPROM, a timed
    measurement reports 0 whatever was on the scale. *)
Theorem timedMeasure_nan_factor (d : Device) :
  F32.is_nan (getCalibrationFactor d) = true ->
  fst (timedMeasure d) = F32.zero.
Proof.
  intros Hnan. rewrite timedMeasure_maxWeight.
  apply maxWeightLoop_nan. exact Hnan.
Qed.

Lemma maxWeightLoop_stable (n : nat) (r zo cf mw : Z) :
  F32.gtb (trueWeight r zo cf) mw = false ->
  maxWeightLoop (replicate n r) zo cf mw = mw.
Proof.
  intros H. induction n as [|n IH]; cbn [replicate maxWeightLoop];
    [reflexivity|].
  rewrite H. exact IH.
Qed.

Lemma getReadings_constant (n : nat) (d : Device) (r : Z) :
  (forall i, (adcPos d <= i < adcPos d + n)%nat -> adc d i = r) ->
  fst (getReadings n d) = replicate n (wrap32 r).
Proof.
  rewrite getReadings_spec. cbn [fst]. generalize (adcPos d). intros p.
  revert p. induction n as [|n IH]; intros p H; [reflexivity|].
  cbn [seq map replicate]. rewrite (H p) by lia. f_equal.
  apply IH. intros i Hi. apply H. lia.
Qed.

Lemma maxWeightLoop_constant (n : nat) (r zo cf : Z) :
  (0 < n)%nat ->
  let t := trueWeight r zo cf in
  maxWeightLoop (replicate n r) zo cf F32.zero
  = if F32.gtb t F32.zero then t else F32.zero.
Proof.
  intros Hn t. destruct n as [|n]; [lia|].
  cbn [replicate maxWeightLoop]. fold t.
  apply maxWeightLoop_stable. fold t.
  destruct (F32.gtb t F32.zero) eqn:Hg; [|exact Hg].
  unfold F32.gtb. apply SFltb_irrefl.
Qed.

(** X10.  With the load steady over the session (every sample reads [r]) the
    maximum reported is the weight of [r] when that is above 0, and 0
    otherwise. *)
Theorem timedMeasure_constant_load (d : Device) (r : Z) :
  (forall i, (adcPos d <= i < adcPos d + numMeasurements)%nat ->
             adc d i = r) ->
  let t := trueWeight (wrap32 r) (wrap32 (getZeroOffset d))
             (getCalibrationFactor d) in
  fst (timedMeasure d) = if F32.gtb t F32.zero then t else F32.zero.
Proof.
  intros H t. rewrite timedMeasure_maxWeight.
  rewrite (getReadings_constant numMeasurements d r H).
  apply maxWeightLoop_constant. unfold numMeasurements. lia.
Qed.

End TimedMeasureMore.

Lemma timedMeasure_max_upper_bound_witness :
  In 0 (fst (Sketch.getReadings Sketch.numMeasurements allNegative)) /\
  F32.gtb (Sketch.trueWeight 0 (wrap32 (Sketch.getZeroOffset allNegative))
             (Sketch.getCalibrationFactor allNegative))
          (fst (Sketch.timedMeasure allNegative)) = false.
Proof.
  assert (H : In 0 (fst (Sketch.getReadings Sketch.numMeasurements
                           allNegative)))
    by (vm_compute; left; reflexivity).
  split; [exact H|].
  exact (timedMeasure_max_upper_bound allNegative 0 H).
Defined.

Lemma timedMeasure_nan_factor_witness :
  F32.is_nan (Sketch.getCalibrationFactor (Sketch.readSystemSettings erased))
  = true /\
  fst (Sketch.timedMeasure (Sketch.readSystemSettings erased)) = F32.zero.
Proof.
  assert (H : F32.is_nan (Sketch.getCalibrationFactor
                            (Sketch.readSystemSettings erased)) = true)
    by (vm_compute; reflexivity).
  split; [exact H|].
  exact (timedMeasure_nan_factor (Sketch.readSystemSettings erased) H).
Defined.

Lemma timedMeasure_constant_load_witness :
  (forall i, (Sketch.adcPos calibrated <= i
              < Sketch.adcPos calibrated + Sketch.numMeasurements)%nat ->
             Sketch.adc calibrated i = 43122) /\
  fst (Sketch.timedMeasure calibrated)
  = Sketch.trueWeight 43122 25776 1150199269.
Proof.
  assert (H : forall i, (Sketch.adcPos calibrated <= i
                         < Sketch.adcPos calibrated
                           + Sketch.numMeasurements)%nat ->
                        Sketch.adc calibrated i = 43122)
    by (intros i _; reflexivity).
  split; [exact H|].
  refine (eq_trans (timedMeasure_constant_load calibrated 43122 H) _).
  vm_compute. reflexivity.
Defined.

Section ZeroFactor.

Import Sketch.

(** Dividing by the scale factor 0.0: plus or minus infinity by the sign
    of the difference, a NaN for the difference 0. *)
Lemma trueWeight_zero_factor (m zo : Z) :
  Z.abs (m - zo) < 2 ^ 24 ->
  trueWeight m zo F32.zero
  = if m - zo >? 0 then F32.to_bits (S754_infinity false)
    else if m - zo <? 0 then F32.to_bits (S754_infinity true)
    else F32.to_bits S754_nan.
Proof.
  intros Habs. unfold trueWeight.
  rewrite wrap32_small
    by (revert Habs; change (2 ^ 24) with 16777216;
        change (2 ^ 31) with 2147483648; lia).
  destruct (Z.eq_dec (m - zo) 0) as [H0|Hne].
  - rewrite H0. vm_compute. reflexivity.
  - destruct (of_int_exact (m - zo) Hne Habs) as (Hn & Hs & _).
    unfold F32.div, F32.is_number, F32.sign in *.
    destruct (F32.of_bits (F32.of_int (m - zo))) as [| | |s mm e];
      try discriminate.
    change (F32.of_bits F32.zero) with (S754_zero false).
    cbn [SFdiv]. rewrite xorb_false_r, Hs.
    destruct (Z.ltb_spec (m - zo) 0), (Z.gtb_spec (m - zo) 0);
      try reflexivity; lia.
Qed.

Lemma maxWeightLoop_zero_factor (ms : list Z) (zo : Z) :
  (forall m, In m ms -> Z.abs (m - zo) < 2 ^ 24) ->
  forall mw : Z,
  mw = F32.zero \/ mw = F32.to_bits (S754_infinity false) ->
  maxWeightLoop ms zo F32.zero mw
  = if (mw =? F32.to_bits (S754_infinity false))
       || existsb (fun m => m >? zo) ms
    then F32.to_bits (S754_infinity false) else F32.zero.
Proof.
  induction ms as [|m ms IH]; intros Hr mw Hmw.
  - cbn [maxWeightLoop existsb]. rewrite orb_false_r.
    destruct Hmw as [-> | ->]; reflexivity.
  - cbn [maxWeightLoop existsb].
    rewrite trueWeight_zero_factor by (apply Hr; left; reflexivity).
    assert (Hr' : forall m', In m' ms -> Z.abs (m' - zo) < 2 ^ 24)
      by (intros m' Hin; apply Hr; right; exact Hin).
    destruct (Z.gtb_spec m zo) as [Hgt|Hle].
    + destruct (Z.gtb_spec (m - zo) 0) as [_|?]; [|lia].
      rewrite orb_true_r.
      destruct Hmw as [-> | ->].
      * change (F32.gtb (F32.to_bits (S754_infinity false)) F32.zero)
          with true. cbv iota.
        rewrite (IH Hr' _ (or_intror eq_refl)). reflexivity.
      * change (F32.gtb (F32.to_bits (S754_infinity false))
                  (F32.to_bits (S754_infinity false))) with false.
        cbv iota. rewrite (IH Hr' _ (or_intror eq_refl)). reflexivity.
    + destruct (Z.gtb_spec (m - zo) 0) as [?|_]; [lia|].
      cbn [orb].
      assert (Hno : forall t,
                t = F32.to_bits (S754_infinity true)
                \/ t = F32.to_bits S754_nan ->
                F32.gtb t mw = false).
      { intros t [-> | ->]; destruct Hmw as [-> | ->]; reflexivity. }
      rewrite Hno by (destruct (m - zo <? 0); auto).
      apply IH; assumption.
Qed.

(** X11.  With the scale factor 0.0 (the default the sketch means to load) a
    timed measurement reports plus infinity as soon as one sample reads
    above the zero offset, and 0 otherwise. *)
Theorem timedMeasure_zero_factor (d : Device) :
  getCalibrationFactor d = F32.zero ->
  let zo := wrap32 (getZeroOffset d) in
  let measurements := fst (getReadings numMeasurements d) in
  (forall m, In m measurements -> Z.abs (m - zo) < 2 ^ 24) ->
  fst (timedMeasure d)
  = if existsb (fun m => m >? zo) measurements
    then F32.to_bits (S754_infinity false) else F32.zero.
Proof.
  intros Hcf zo measurements Hr. rewrite timedMeasure_maxWeight, Hcf.
  fold zo measurements. clearbody measurements zo.
  rewrite (maxWeightLoop_zero_factor measurements zo Hr F32.zero
             (or_introl eq_refl)).
  reflexivity.
Qed.

End ZeroFactor.

Lemma timedMeasure_zero_factor_witness :
  Sketch.getCalibrationFactor teaCup = F32.zero /\
  forallb (fun m => Z.abs (m - 1000) <? 2 ^ 24)
    (fst (Sketch.getReadings Sketch.numMeasurements teaCup)) = true /\
  fst (Sketch.timedMeasure teaCup) = F32.to_bits (S754_infinity false).
Proof.
  assert (H : forallb (fun m => Z.abs (m - 1000) <? 2 ^ 24)
                (fst (Sketch.getReadings Sketch.numMeasurements teaCup))
              = true) by (vm_compute; reflexivity).
  split; [reflexivity|]. split; [exact H|].
  refine (eq_trans (timedMeasure_zero_factor teaCup eq_refl _) _).
  - intros m Hin.
    exact (proj1 (Z.ltb_lt _ _) (proj1 (forallb_forall _ _) H m Hin)).
  - vm_compute. reflexivity.
Defined.

Section StoreMore.

Import Sketch.

(** After loading, the EEPROM holds what the driver holds, and neither
    field reads as erased any more. *)
Lemma readSystemSettings_stored (d : Device) :
  (14 <= length (EEPROM d))%nat ->
  let d' := readSystemSettings d in
  EEPROM_get LOCATION_CALIBRATION_FACTOR (EEPROM d') = getCalibrationFactor d' /\
  F32.eqb (getCalibrationFactor d') (F32.of_int 4294967295) = false /\
  wrap32 (EEPROM_get LOCATION_ZERO_OFFSET (EEPROM d')) = getZeroOffset d' /\
  (unsigned32 (getZeroOffset d') =? 4294967295) = false /\
  length (EEPROM d') = length (EEPROM d).
Proof.
  intros Hlen. cbv zeta. unfold readSystemSettings.
  set (f0 := EEPROM_get LOCATION_CALIBRATION_FACTOR (EEPROM d)).
  destruct (F32.eqb f0 (F32.of_int 4294967295)) eqn:Hf.
  - set (m1 := EEPROM_put LOCATION_CALIBRATION_FACTOR (F32.of_int 0) (EEPROM d)).
    assert (Hl1 : length m1 = length (EEPROM d)) by apply length_EEPROM_put.
    assert (Hg0 : EEPROM_get LOCATION_CALIBRATION_FACTOR m1 = F32.of_int 0).
    { unfold m1. rewrite EEPROM_get_put_eq
        by (unfold LOCATION_CALIBRATION_FACTOR; lia). reflexivity. }
    set (z0 := wrap32 (EEPROM_get LOCATION_ZERO_OFFSET m1)).
    destruct (unsigned32 z0 =? 4294967295) eqn:Hz;
      match goal with
      | |- context [if ?c then _ else _] => destruct c
      end;
      cbn [getCalibrationFactor getZeroOffset settingsDetected myScale EEPROM
           set_settingsDetected setZeroOffset setCalibrationFactor
           set_myScale set_EEPROM zeroOffset calibrationFactor];
      rewrite ?EEPROM_get_put_disjoint
        by (unfold LOCATION_CALIBRATION_FACTOR, LOCATION_ZERO_OFFSET; lia);
      rewrite ?EEPROM_get_put_eq by (unfold LOCATION_ZERO_OFFSET; lia);
      rewrite ?length_EEPROM_put;
      repeat split; auto.
  - set (z0 := wrap32 (EEPROM_get LOCATION_ZERO_OFFSET (EEPROM d))).
    destruct (unsigned32 z0 =? 4294967295) eqn:Hz;
      match goal with
      | |- context [if ?c then _ else _] => destruct c
      end;
      cbn [getCalibrationFactor getZeroOffset settingsDetected myScale EEPROM
           set_settingsDetected setZeroOffset setCalibrationFactor
           set_myScale set_EEPROM zeroOffset calibrationFactor];
      rewrite ?EEPROM_get_put_disjoint
        by (unfold LOCATION_CALIBRATION_FACTOR, LOCATION_ZERO_OFFSET; lia);
      rewrite ?EEPROM_get_put_eq by (unfold LOCATION_ZERO_OFFSET; lia);
      rewrite ?length_EEPROM_put;
      repeat split; auto.
Qed.

(** X12.  Loading twice is loading once: the defaults written back by the first
    load make the second one find nothing to repair. *)
Theorem readSystemSettings_idempotent (d : Device) :
  (14 <= length (EEPROM d))%nat ->
  readSystemSettings (readSystemSettings d) = readSystemSettings d.
Proof.
  intros Hlen.
  destruct (readSystemSettings_stored d Hlen) as (Hf & Hfe & Hz & Hze & _).
  pose proof (readSystemSettings_flag d) as Hflag.
  cbv zeta in *.
  set (d' := readSystemSettings d) in *. clearbody d'.
  unfold readSystemSettings.
  rewrite Hf, Hfe, Hz, Hze.
  unfold getCalibrationFactor, getZeroOffset in *.
  destruct d' as [[zo cf] mem sd ? ? ? ? ? ? ?].
  cbn [myScale zeroOffset calibrationFactor settingsDetected] in *.
  subst sd. destruct (_ || _); reflexivity.
Qed.

(** X13.  The calibrated flag after loading is false exactly when the
    loaded scale factor is below 0.1 or the loaded zero offset is 1000; a
    NaN scale factor is below nothing, so with a zero offset other than
    1000 it is taken for a calibration. *)
Theorem readSystemSettings_flag_cases (d : Device) :
  let d' := readSystemSettings d in
  let below :=
    SFltb (F32.to_double (getCalibrationFactor d')) F32.double_0_1 in
  (settingsDetected d' = false <->
   below = true \/ getZeroOffset d' = 1000) /\
  (F32.is_nan (getCalibrationFactor d') = true ->
   settingsDetected d' = negb (getZeroOffset d' =? 1000)).
Proof.
  pose proof (readSystemSettings_flag d) as H. cbv zeta in *.
  set (d' := readSystemSettings d) in *. clearbody d'.
  rewrite H. split.
  - destruct (SFltb _ _); cbn [orb negb].
    + split; [intros _; left; reflexivity|reflexivity].
    + destruct (Z.eqb_spec (getZeroOffset d') 1000) as [E|E]; cbn [negb].
      * split; [intros _; right; exact E|reflexivity].
      * split; [discriminate|intros [?|?]; [discriminate|contradiction]].
  - intros Hnan. unfold F32.is_nan, F32.to_double in *.
    destruct (F32.of_bits (getCalibrationFactor d')); try discriminate.
    reflexivity.
Qed.

End StoreMore.

Lemma readSystemSettings_idempotent_witness :
  (14 <= length (Sketch.EEPROM erased))%nat /\
  Sketch.readSystemSettings (Sketch.readSystemSettings erased)
  = Sketch.readSystemSettings erased.
Proof.
  assert (H : (14 <= length (Sketch.EEPROM erased))%nat)
    by (vm_compute; lia).
  split; [exact H|].
  exact (readSystemSettings_idempotent erased H).
Defined.

Lemma readSystemSettings_flag_cases_witness :
  F32.is_nan (Sketch.getCalibrationFactor (Sketch.readSystemSettings
                                             zeroOffsetMinusOne)) = true /\
  Sketch.settingsDetected (Sketch.readSystemSettings zeroOffsetMinusOne)
  = false.
Proof.
  assert (H : F32.is_nan (Sketch.getCalibrationFactor
                            (Sketch.readSystemSettings zeroOffsetMinusOne))
              = true) by (vm_compute; reflexivity).
  split; [exact H|].
  refine (eq_trans (proj2 (readSystemSettings_flag_cases zeroOffsetMinusOne)
                      H) _).
  vm_compute. reflexivity.
Defined.

Lemma wrap32_range (z : Z) : - 2 ^ 31 <= wrap32 z < 2 ^ 31.
Proof.
  unfold wrap32. change (2 ^ 31) with 2147483648.
  change (2 ^ 32) with 4294967296. Z.div_mod_to_equations. lia.
Qed.

Lemma to_bits_range (y : spec_float) :
  (forall s m e, y = S754_finite s m e ->
     Zpos m < 2 ^ 24 /\ -149 <= e <= 104) ->
  0 <= F32.to_bits y < 2 ^ 32.
Proof.
  intros Hy. destruct y as [[]|[]| |s m e].
  1-5: vm_compute; split; congruence.
  destruct (Hy s m e eq_refl) as [Hm He]. unfold F32.to_bits, F32.sign_bit.
  revert Hm. change (2 ^ 24) with 16777216. change (2 ^ 23) with 8388608.
  change (2 ^ 31) with 2147483648. change (2 ^ 32) with 4294967296.
  intros Hm.
  destruct (Z.ltb_spec (Zpos m) 8388608), s; lia.
Qed.

(** A quotient is always a 32-bit pattern. *)
Lemma div_range (a b : Z) : 0 <= F32.div a b < 2 ^ 32.
Proof.
  unfold F32.div. apply to_bits_range. intros s m e H.
  destruct (F32.of_bits a) as [sa|sa| |sa ma ea],
           (F32.of_bits b) as [sb|sb| |sb mb eb];
    try discriminate H.
  assert (Hprec : 0 < F32.prec) by reflexivity.
  destruct (SFdiv_finite _ _ _ _ _ _ _ _ _ _ _ Hprec H) as (_ & Hm & He & _).
  split; [exact Hm|exact He].
Qed.

Section StoreFrame.

Import Sketch.
Variable defaultSamples : nat.

(** X14.  Recording and loading touch the cells 0..3 and 10..13 only, and keep
    the size of the EEPROM. *)
Theorem settings_touch_only_their_cells (d : Device) (i : nat) :
  (4 <= i < 10 \/ 14 <= i)%nat ->
  EEPROM (recordSystemSettings d) !! i = EEPROM d !! i /\
  EEPROM (readSystemSettings d) !! i = EEPROM d !! i /\
  length (EEPROM (recordSystemSettings d)) = length (EEPROM d) /\
  length (EEPROM (readSystemSettings d)) = length (EEPROM d).
Proof.
  intros Hi.
  assert (Hput0 : forall v mem,
            EEPROM_put LOCATION_CALIBRATION_FACTOR v mem !! i = mem !! i).
  { intros v mem. unfold EEPROM_put, LOCATION_CALIBRATION_FACTOR.
    apply list_lookup_inserts_ge. cbn [length bytes_of32]. lia. }
  assert (Hput10 : forall v mem,
            EEPROM_put LOCATION_ZERO_OFFSET v mem !! i = mem !! i).
  { intros v mem. unfold EEPROM_put, LOCATION_ZERO_OFFSET.
    destruct Hi as [Hi|Hi].
    - apply list_lookup_inserts_lt. lia.
    - apply list_lookup_inserts_ge. cbn [length bytes_of32]. lia. }
  split; [|split; [|split]].
  - unfold recordSystemSettings. cbn [EEPROM set_EEPROM].
    rewrite Hput10, Hput0. reflexivity.
  - unfold readSystemSettings.
    destruct (F32.eqb _ _); destruct (unsigned32 _ =? _);
      match goal with
      | |- context [if ?c then _ else _] => destruct c
      end;
      cbn [EEPROM set_settingsDetected setZeroOffset setCalibrationFactor
           set_myScale set_EEPROM];
      rewrite ?Hput10, ?Hput0; reflexivity.
  - unfold recordSystemSettings. cbn [EEPROM set_EEPROM].
    rewrite !length_EEPROM_put. reflexivity.
  - unfold readSystemSettings.
    destruct (F32.eqb _ _); destruct (unsigned32 _ =? _);
      match goal with
      | |- context [if ?c then _ else _] => destruct c
      end;
      cbn [EEPROM set_settingsDetected setZeroOffset setCalibrationFactor
           set_myScale set_EEPROM];
      rewrite ?length_EEPROM_put; reflexivity.
Qed.

(** X15.  A calibration survives a restart: after the guided calibration,
    loading the settings into a driver that has lost its state (it holds
    any [s]) gives the driver the zero offset and the scale factor the
    calibration left, and writes nothing (unless the tare average was -1
    or the scale factor equals 4294967296.0). *)
Theorem calibrateScale_survives_restart (d : Device) (s : NAU7802) :
  (14 <= length (EEPROM d))%nat ->
  let d' := calibrateScale defaultSamples d in
  getZeroOffset d' <> -1 ->
  F32.eqb (getCalibrationFactor d') (F32.of_int 4294967295) = false ->
  let restarted := readSystemSettings (set_myScale s d') in
  myScale restarted = myScale d' /\
  EEPROM restarted = EEPROM d'.
Proof.
  intros Hlen d' Hne Hfe restarted.
  destruct (calibrateScale_result defaultSamples d) as (Hs & He & _).
  cbv zeta in Hs, He. fold d' in Hs, He.
  set (tare := averageAt d (adcPos d) 64) in *.
  set (factor := F32.div _ _) in *.
  assert (Hz' : getZeroOffset d' = tare)
    by (unfold getZeroOffset; rewrite Hs; reflexivity).
  assert (Hc' : getCalibrationFactor d' = factor)
    by (unfold getCalibrationFactor; rewrite Hs; reflexivity).
  assert (Hfr : 0 <= factor < 2 ^ 32) by apply div_range.
  assert (Htr : - 2 ^ 31 <= tare < 2 ^ 31) by apply wrap32_range.
  assert (Hmem : EEPROM (set_myScale s d') = EEPROM d') by reflexivity.
  clearbody tare factor.
  destruct (readSystemSettings_loads (set_myScale s d') factor tare)
    as [Hm Hw].
  - rewrite Hmem, He.
    rewrite EEPROM_get_put_disjoint
      by (unfold LOCATION_CALIBRATION_FACTOR, LOCATION_ZERO_OFFSET; lia).
    rewrite EEPROM_get_put_eq by (unfold LOCATION_CALIBRATION_FACTOR; lia).
    apply Z.mod_small. exact Hfr.
  - rewrite <- Hc'. exact Hfe.
  - rewrite Hmem, He.
    rewrite EEPROM_get_put_eq
      by (rewrite length_EEPROM_put; unfold LOCATION_ZERO_OFFSET; lia).
    apply wrap32_unsigned. exact Htr.
  - apply unsigned32_not_erased; [exact Htr|]. rewrite <- Hz'. exact Hne.
  - fold restarted in Hm, Hw. split.
    + rewrite Hm, Hs. reflexivity.
    + rewrite Hw. exact Hmem.
Qed.

End StoreFrame.

Lemma settings_touch_only_their_cells_witness :
  (4 <= 5 < 10 \/ 14 <= 5)%nat /\
  Sketch.EEPROM (Sketch.recordSystemSettings calibrated) !! 5%nat
  = Sketch.EEPROM calibrated !! 5%nat.
Proof.
  assert (H : (4 <= 5 < 10 \/ 14 <= 5)%nat) by (left; lia).
  split; [exact H|].
  exact (proj1 (settings_touch_only_their_cells calibrated 5 H)).
Defined.

Lemma calibrateScale_survives_restart_witness :
  (14 <= length (Sketch.EEPROM teaCup))%nat /\
  Sketch.getZeroOffset (Sketch.calibrateScale 8 teaCup) <> -1 /\
  F32.eqb (Sketch.getCalibrationFactor (Sketch.calibrateScale 8 teaCup))
          (F32.of_int 4294967295) = false /\
  Sketch.myScale
    (Sketch.readSystemSettings
       (Sketch.set_myScale blankDriver (Sketch.calibrateScale 8 teaCup)))
  = Sketch.myScale (Sketch.calibrateScale 8 teaCup).
Proof.
  assert (H1 : (14 <= length (Sketch.EEPROM teaCup))%nat)
    by (vm_compute; lia).
  assert (H2 : Sketch.getZeroOffset (Sketch.calibrateScale 8 teaCup) <> -1)
    by (vm_compute; discriminate).
  assert (H3 : F32.eqb (Sketch.getCalibrationFactor
                          (Sketch.calibrateScale 8 teaCup))
                       (F32.of_int 4294967295) = false)
    by (vm_compute; reflexivity).
  split; [exact H1|]. split; [exact H2|]. split; [exact H3|].
  exact (proj1 (calibrateScale_survives_restart 8 teaCup blankDriver
                  H1 H2 H3)).
Defined.

Section ZeroWeight.

Import Sketch.
Variable defaultSamples : nat.

(** The integer difference of two samples converts to zero or to a
    finite number. *)
Lemma of_int_zero_or_number (n : Z) :
  Z.abs n < 2 ^ 24 ->
  exists y, F32.of_bits (F32.of_int n) = y /\
            match y with
            | S754_zero _ | S754_finite _ _ _ => True
            | _ => False
            end.
Proof.
  intros Habs. destruct (Z.eq_dec n 0) as [->|Hne].
  - exists (S754_zero false). split; [reflexivity|exact I].
  - destruct (of_int_exact n Hne Habs) as (Hn & _).
    unfold F32.is_number in Hn.
    destruct (F32.of_bits (F32.of_int n)) as [| | |s m e] eqn:E;
      try discriminate.
    exists (S754_finite s m e). split; [reflexivity|exact I].
Qed.

(** Dividing by an infinite scale factor gives zero. *)
Lemma trueWeight_infinite_factor (raw zo cf : Z) (s : bool) :
  Z.abs (raw - zo) < 2 ^ 24 ->
  F32.of_bits cf = S754_infinity s ->
  F32.eqb (trueWeight raw zo cf) F32.zero = true.
Proof.
  intros Habs Hcf. unfold trueWeight, F32.div.
  rewrite wrap32_small
    by (revert Habs; change (2 ^ 24) with 16777216;
        change (2 ^ 31) with 2147483648; lia).
  destruct (of_int_zero_or_number (raw - zo) Habs) as (y & Hy & Hk).
  rewrite Hy, Hcf.
  destruct y as [sy|sy| |sy my ey]; try contradiction;
    cbn [SFdiv]; destruct (xorb sy s); reflexivity.
Qed.

(** A nonzero difference divided by zero is infinite. *)
Lemma zero_weight_factor (loaded tare w : Z) :
  F32.eqb w F32.zero = true ->
  loaded <> tare -> Z.abs (loaded - tare) < 2 ^ 24 ->
  exists s, F32.of_bits (F32.div (F32.of_int (wrap32 (loaded - tare))) w)
            = S754_infinity s.
Proof.
  intros Hw Hne Habs. unfold F32.div.
  rewrite wrap32_small
    by (revert Habs; change (2 ^ 24) with 16777216;
        change (2 ^ 31) with 2147483648; lia).
  destruct (of_int_exact (loaded - tare) ltac:(lia) Habs) as (Hn & _).
  unfold F32.is_number in Hn. unfold F32.eqb in Hw.
  change (F32.of_bits F32.zero) with (S754_zero false) in Hw.
  destruct (F32.of_bits (F32.of_int (loaded - tare))) as [| | |sn mn en];
    try discriminate.
  destruct (F32.of_bits w) as [sw|[]| |[] mw ew]; try discriminate.
  cbn [SFdiv]. exists (xorb sn sw).
  destruct (xorb sn sw); reflexivity.
Qed.

(** X16.  When the number typed as the known weight is 0 (also what
    [parseFloat] answers to input that is no number), the guided
    calibration leaves an infinite scale factor, records it, and from then
    on every sample weighs zero. *)
Theorem calibrateScale_zero_weight (d : Device) (raw : Z) :
  F32.eqb (fst (parseFloat d)) F32.zero = true ->
  let tare := averageAt d (adcPos d) 64 in
  let loaded := averageAt d (adcPos d + 64) 64 in
  loaded <> tare -> Z.abs (loaded - tare) < 2 ^ 24 ->
  Z.abs (raw - tare) < 2 ^ 24 ->
  let d' := calibrateScale defaultSamples d in
  (exists s, F32.of_bits (getCalibrationFactor d') = S754_infinity s) /\
  F32.is_finite (getCalibrationFactor d') = false /\
  EEPROM d'
  = EEPROM_put LOCATION_ZERO_OFFSET tare
      (EEPROM_put LOCATION_CALIBRATION_FACTOR (getCalibrationFactor d')
         (EEPROM d)) /\
  F32.eqb (trueWeight raw (getZeroOffset d') (getCalibrationFactor d'))
          F32.zero = true.
Proof.
  intros Hw tare loaded Hne Habs Hraw d'.
  destruct (calibrateScale_result defaultSamples d) as (Hs & He & _).
  cbv zeta in Hs, He. fold tare loaded d' in Hs, He.
  assert (Hz : getZeroOffset d' = tare)
    by (unfold getZeroOffset; rewrite Hs; reflexivity).
  assert (Hc : getCalibrationFactor d'
               = F32.div (F32.of_int (wrap32 (loaded - tare)))
                   (fst (parseFloat d)))
    by (unfold getCalibrationFactor; rewrite Hs; reflexivity).
  rewrite <- Hc in He. clear Hs.
  generalize dependent (fst (parseFloat d)). intros w Hw Hc.
  clearbody d' tare loaded.
  destruct (zero_weight_factor loaded tare w Hw Hne Habs) as [s Hs].
  rewrite <- Hc in Hs.
  split; [exists s; exact Hs|]. split; [|split; [exact He|]].
  - unfold F32.is_finite. rewrite Hs. reflexivity.
  - rewrite Hz. exact (trueWeight_infinite_factor raw tare _ s Hraw Hs).
Qed.

End ZeroWeight.

Lemma calibrateScale_zero_weight_witness :
  F32.eqb (fst (Sketch.parseFloat nothingTyped)) F32.zero = true /\
  averageAt nothingTyped (Sketch.adcPos nothingTyped + 64) 64
  <> averageAt nothingTyped (Sketch.adcPos nothingTyped) 64 /\
  F32.is_finite (Sketch.getCalibrationFactor
                   (Sketch.calibrateScale 8 nothingTyped)) = false.
Proof.
  assert (H1 : F32.eqb (fst (Sketch.parseFloat nothingTyped)) F32.zero = true)
    by (vm_compute; reflexivity).
  assert (H2 : averageAt nothingTyped (Sketch.adcPos nothingTyped + 64) 64
               <> averageAt nothingTyped (Sketch.adcPos nothingTyped) 64)
    by (vm_compute; discriminate).
  assert (H3 : Z.abs (averageAt nothingTyped
                        (Sketch.adcPos nothingTyped + 64) 64
                      - averageAt nothingTyped
                          (Sketch.adcPos nothingTyped) 64) < 2 ^ 24)
    by (vm_compute; reflexivity).
  assert (H4 : Z.abs (57683 - averageAt nothingTyped
                                (Sketch.adcPos nothingTyped) 64) < 2 ^ 24)
    by (vm_compute; reflexivity).
  split; [exact H1|]. split; [exact H2|].
  exact (proj1 (proj2
           (calibrateScale_zero_weight 8 nothingTyped 57683 H1 H2 H3 H4))).
Defined.

Section Decoder.

Import CommandConverter.

Lemma stringToCommand_token (s : string) (c : Commands) :
  stringToCommand s = Returns c -> s ∈ tokens.
Proof.
  intros H. destruct (decide (s ∈ tokens)) as [Hin|Hout]; [exact Hin|].
  unfold stringToCommand in H.
  rewrite (stringToCommandMap_None s Hout) in H. discriminate.
Qed.

(** X17.  The decoder is one to one and case sensitive to the letter: two
    strings that decode to the same command are the same string, one of
    the five tokens. *)
Theorem stringToCommand_injective (s1 s2 : string) (c : Commands) :
  stringToCommand s1 = Returns c -> stringToCommand s2 = Returns c ->
  s1 = s2 /\ s1 ∈ tokens.
Proof.
  intros H1 H2.
  pose proof (stringToCommand_token s1 c H1) as Hin1.
  pose proof (stringToCommand_token s2 c H2) as Hin2.
  split; [|exact Hin1].
  unfold tokens in Hin1, Hin2.
  repeat (apply elem_of_cons in Hin1; destruct Hin1 as [->|Hin1]);
    try (apply elem_of_nil in Hin1; contradiction);
    repeat (apply elem_of_cons in Hin2; destruct Hin2 as [->|Hin2]);
    try (apply elem_of_nil in Hin2; contradiction);
    try reflexivity;
    vm_compute in H1; vm_compute in H2; congruence.
Qed.

End Decoder.

Lemma stringToCommand_injective_witness :
  CommandConverter.stringToCommand "tare"
  = CommandConverter.Returns CommandConverter.TARE /\
  "tare" ∈ tokens.
Proof.
  assert (H : CommandConverter.stringToCommand "tare"
              = CommandConverter.Returns CommandConverter.TARE)
    by (vm_compute; reflexivity).
  split; [exact H|].
  exact (proj2 (stringToCommand_injective "tare" "tare"
                  CommandConverter.TARE H H)).
Defined.
